(** * gusto: the Gusto Auth & API SDK interface (gusto/gusto.py)

    A shallow embedding of the two classes of [gusto/gusto.py], [GustoAuth]
    (OAuth token exchange, holder of the refresh token) and [Gusto]
    (authenticated reads), and the properties of their methods.

    Python objects are mutable and Python calls can raise, so every method
    is a computation in a state-and-exception monad: it receives [self] and
    the outside world (the HTTP server and the log of requests sent so far)
    and gives back a result or a raised exception together with the new
    [self] and the new world.  A raised exception does not roll anything
    back. *)

From Stdlib Require Import ZArith List String Ascii Bool Lia DecimalString.
From Stdlib Require Import Floats.
Import ListNotations.
Open Scope string_scope.

Set Warnings "-register-all".

(* ===================================================================== *)
(** ** Python values, exceptions and the subscript operations            *)
(* ===================================================================== *)

Module Py.

(** What [response.json()] can produce, and what the token fields hold:
    [None], booleans, integers, floats, strings, lists and dicts with
    string keys.  A dict keeps its insertion order; a lookup finds the
    first binding of the key.  A character is an [ascii]. *)
Inductive value : Type :=
| PyNone
| PyBool (b : bool)
| PyInt (z : Z)
| PyFloat (f : float)
| PyStr (s : string)
| PyList (l : list value)
| PyDict (d : list (string * value)).

(** The literal subscripts of the source: ["roles"], [0]. *)
Inductive key : Type :=
| KStr (s : string)
| KInt (i : Z).

(** The exceptions the module can raise or let through. [Exception] is
    the generic class with its positional arguments (gusto.py:70);
    [RequestException] is what [requests] raises when no response is
    received; [JSONDecodeError] is what [response.json()] raises on a
    body that is not JSON.  The module's own [UnauthorizedException]
    (gusto.py:17) is raised nowhere and has no constructor here. *)
Inductive exn : Type :=
| Exception (args : list value)
| KeyError (k : key)
| IndexError
| TypeError
| AttributeError
| RequestException
| JSONDecodeError.

Inductive result (A : Type) : Type :=
| Ok (a : A)
| Raise (e : exn).

Arguments Ok {A} a.
Arguments Raise {A} e.

Fixpoint dict_get (k : string) (d : list (string * value)) : option value :=
  match d with
  | [] => None
  | (k', v) :: d' => if String.eqb k k' then Some v else dict_get k d'
  end.

(** [d[k] = v] on a dict: the binding is replaced in place when the key is
    there and appended otherwise. *)
Fixpoint dict_set (k : string) (v : value) (d : list (string * value))
  : list (string * value) :=
  match d with
  | [] => [(k, v)]
  | (k', v') :: d' =>
      if String.eqb k k' then (k, v) :: d' else (k', v') :: dict_set k v d'
  end.

(** Python's sequence index: a negative index counts from the end. *)
Definition seq_index {A : Type} (l : list A) (i : Z) : option A :=
  let n := Z.of_nat (List.length l) in
  let j := (if i <? 0 then n + i else i)%Z in
  if ((0 <=? j) && (j <? n))%Z then nth_error l (Z.to_nat j) else None.

(** [v[k]]: [KeyError] on a dict without the key, [IndexError] on a list or
    string too short, [TypeError] on a value that is not subscriptable or
    not by that kind of key. *)
Definition getitem (v : value) (k : key) : result value :=
  match v, k with
  | PyDict d, KStr s =>
      match dict_get s d with
      | Some x => Ok x
      | None => Raise (KeyError k)
      end
  | PyDict _, KInt _ => Raise (KeyError k)
  | PyList l, KInt i =>
      match seq_index l i with
      | Some x => Ok x
      | None => Raise IndexError
      end
  | PyList _, KStr _ => Raise TypeError
  | PyStr s, KInt i =>
      match seq_index (list_ascii_of_string s) i with
      | Some c => Ok (PyStr (String c EmptyString))
      | None => Raise IndexError
      end
  | PyStr _, KStr _ => Raise TypeError
  | _, _ => Raise TypeError
  end.

(** [v.keys()]: only a dict has the method. *)
Definition keys (v : value) : result (list string) :=
  match v with
  | PyDict d => Ok (List.map fst d)
  | _ => Raise AttributeError
  end.

(** [k in ks] *)
Definition contains (k : string) (ks : list string) : bool :=
  List.existsb (String.eqb k) ks.

(** Python's [repr] of floats, lists and dicts is not written out here:
    the formatting of these values is a parameter of the development. *)
Class Builtins : Type := { repr : value -> string }.

(** [f"{v}"]: the text an f-string puts in place of a value. *)
Definition format {bi : Builtins} (v : value) : string :=
  match v with
  | PyStr s => s
  | PyInt z => NilZero.string_of_int (Z.to_int z)
  | PyNone => "None"
  | PyBool true => "True"
  | PyBool false => "False"
  | _ => repr v
  end.

End Py.

Export Py.

(* ===================================================================== *)
(** ** The HTTP collaborator ([requests]) and the method monad           *)
(* ===================================================================== *)

Module Http.

Inductive verb : Type := GET | POST.

(** A request as the module builds it: the URL, the [headers=] dict and,
    for a POST, the [json=] payload. *)
Record Request : Type := mkRequest {
  req_verb : verb;
  req_url : string;
  req_headers : list (string * string);
  req_json : option value
}.

(** A response received: its status code and what [response.json()]
    gives, [None] when the body is not JSON. *)
Record Response : Type := mkResponse {
  status_code : Z;
  body : option value
}.

Inductive Outcome : Type :=
| Received (r : Response)
| TransportFailure.

(** The servers behind [BASE_URL], as a state machine over requests. *)
Class Server : Type := {
  server_state : Type;
  serve : server_state -> Request -> Outcome * server_state
}.

Record World {srv : Server} : Type := mkWorld {
  remote : server_state;
  sent : list Request
}.

(** A method of a class whose instances have type [Self]. *)
Definition M {srv : Server} (Self A : Type) : Type :=
  Self -> World -> result A * Self * World.

Section Monad.
Context {srv : Server} {Self : Type}.

Definition ret {A : Type} (a : A) : M Self A :=
  fun self w => (Ok a, self, w).

Definition raise {A : Type} (e : exn) : M Self A :=
  fun self w => (Raise e, self, w).

Definition bind {A B : Type} (m : M Self A) (f : A -> M Self B) : M Self B :=
  fun self w =>
    match m self w with
    | (Ok a, self', w') => f a self' w'
    | (Raise e, self', w') => (Raise e, self', w')
    end.

Definition lift {A : Type} (r : result A) : M Self A :=
  fun self w => (r, self, w).

(** [self.field] *)
Definition attr {A : Type} (field : Self -> A) : M Self A :=
  fun self w => (Ok (field self), self, w).

(** [self.field = ...] *)
Definition assign (self' : Self) : M Self unit :=
  fun _ w => (Ok tt, self', w).

(** One blocking round trip: the request is logged, the server answers or
    the transport fails. *)
Definition send (q : Request) : M Self Response :=
  fun self w =>
    let (o, remote') := serve (remote w) q in
    let w' := {| remote := remote'; sent := sent w ++ [q] |} in
    match o with
    | Received r => (Ok r, self, w')
    | TransportFailure => (Raise RequestException, self, w')
    end.

(** [requests.get(url, headers=headers)] *)
Definition requests_get (url : string) (headers : list (string * string))
  : M Self Response :=
  send {| req_verb := GET; req_url := url; req_headers := headers;
          req_json := None |}.

(** [requests.post(url, json=data, headers=headers)] *)
Definition requests_post (url : string) (data : value)
  (headers : list (string * string)) : M Self Response :=
  send {| req_verb := POST; req_url := url; req_headers := headers;
          req_json := Some data |}.

(** [response.json()] *)
Definition json (response : Response) : M Self value :=
  match body response with
  | Some v => ret v
  | None => raise JSONDecodeError
  end.

End Monad.

Declare Scope py_scope.
Delimit Scope py_scope with py.
Notation "x <- m ;; k" := (bind m (fun x => k))
  (at level 61, m at next level, right associativity) : py_scope.
Notation "m ;;; k" := (bind m (fun _ => k))
  (at level 61, right associativity) : py_scope.

(** A server for tests: it answers with the queued outcomes in order,
    whatever the request, and fails to answer once the queue is empty. *)
Definition scripted : Server := {|
  server_state := list Outcome;
  serve := fun queue _ =>
    match queue with
    | [] => (TransportFailure, [])
    | o :: queue' => (o, queue')
    end
|}.

End Http.

Export Http.
Open Scope py_scope.

(* ===================================================================== *)
(** ** Module constants                                                  *)
(* ===================================================================== *)

Definition KEY_AUTHCODE : string := "code".
Definition BASE_URL : string := "https://api.gusto-demo.com".
Definition CALLBACK_URL : string := "http://localhost:5000/callback".

(** [CLIENT_ID = os.environ["CLIENT_ID"]], [SECRET = os.environ["SECRET"]]:
    read once from the process environment when the module is loaded. *)
Class Environ : Type := {
  CLIENT_ID : string;
  SECRET : string
}.

(* ===================================================================== *)
(** ** class GustoAuth                                                   *)
(* ===================================================================== *)

Module GustoAuth.

Record t : Type := mk { refresh_token : value }.

(** [GustoAuth(refresh_token=None)] *)
Definition __init__ (refresh_token : value) : t := mk refresh_token.
Definition __init__default : t := __init__ PyNone.

Section Methods.
Context {srv : Server} {env : Environ}.

Definition put (new_token : value) : M t unit :=
  assign (mk new_token).

Definition get : M t value :=
  attr refresh_token.

Definition oauth (token : value) (refresh : bool) : M t value :=
  let data :=
    [("client_id", PyStr CLIENT_ID);
     ("client_secret", PyStr SECRET);
     ("redirect_uri", PyStr CALLBACK_URL)] in
  let data :=
    if refresh
    then dict_set "refresh_token" token
           (dict_set "grant_type" (PyStr "refresh_token") data)
    else dict_set "code" token
           (dict_set "grant_type" (PyStr "authorization_code") data) in
  response <- requests_post (BASE_URL ++ "/oauth/token") (PyDict data)
                [("Content-Type", "application/json")] ;;
  j <- json response ;;
  ks <- lift (keys j) ;;
  if contains "error" ks then
    j1 <- json response ;;
    error <- lift (getitem j1 (KStr "error")) ;;
    j2 <- json response ;;
    error_description <- lift (getitem j2 (KStr "error_description")) ;;
    raise (Exception [error; error_description])
  else
    j1 <- json response ;;
    refresh_token <- lift (getitem j1 (KStr "refresh_token")) ;;
    put refresh_token ;;;
    j2 <- json response ;;
    access_token <- lift (getitem j2 (KStr "access_token")) ;;
    ret access_token.

Definition authorize (token : value) : M t value :=
  oauth token false.

Definition access_token : M t value :=
  token <- get ;;
  oauth token true.

End Methods.

(** [__str__] hands back the attribute as it is. *)
Definition __str__ (self : t) : value := refresh_token self.

(** [str(obj)]: the builtin calls [__str__] and accepts a [str] only
    ("__str__ returned non-string"). *)
Definition str (self : t) : result string :=
  match __str__ self with
  | PyStr s => Ok s
  | _ => Raise TypeError
  end.

End GustoAuth.

(* ===================================================================== *)
(** ** class Gusto                                                       *)
(* ===================================================================== *)

Module Gusto.

Record t : Type := mk { access_token : value }.

Definition __init__ (access_token : value) : t := mk access_token.

Section Methods.
Context {srv : Server} {bi : Builtins}.

Definition me : M t value :=
  token <- attr access_token ;;
  response <- requests_get (BASE_URL ++ "/v1/me")
                [("Accept", "application/json");
                 ("Authorization", "Bearer " ++ format token)] ;;
  json response.

Definition company_id : M t value :=
  profile <- me ;;
  roles <- lift (getitem profile (KStr "roles")) ;;
  payroll_admin <- lift (getitem roles (KStr "payroll_admin")) ;;
  companies <- lift (getitem payroll_admin (KStr "companies")) ;;
  company <- lift (getitem companies (KInt 0)) ;;
  lift (getitem company (KStr "id")).

Definition get_contractors : M t value :=
  id <- company_id ;;
  token <- attr access_token ;;
  response <- requests_get
                (BASE_URL ++ "/v1/companies/" ++ format id ++ "/contractors")
                [("Accept", "application/json");
                 ("Authorization", "Bearer " ++ format token)] ;;
  json response.

Definition get_employees : M t value :=
  id <- company_id ;;
  token <- attr access_token ;;
  response <- requests_get
                (BASE_URL ++ "/v1/companies/" ++ format id ++ "/employees")
                [("Accept", "application/json");
                 ("Authorization", "Bearer " ++ format token)] ;;
  employees <- json response ;;
  ret employees.

End Methods.

End Gusto.

(* ===================================================================== *)
(** ** Observations on a finished call                                   *)
(* ===================================================================== *)

(** What the caller sees of a call: the value returned or the exception. *)
Definition returned {srv : Server} {Self A : Type}
  (x : result A * Self * World) : result A := fst (fst x).

(** The object after the call. *)
Definition self_after {srv : Server} {Self A : Type}
  (x : result A * Self * World) : Self := snd (fst x).

(** The world after the call. *)
Definition world_after {srv : Server} {Self A : Type}
  (x : result A * Self * World) : World := snd x.

(** The value a request carries under a header name. *)
Fixpoint header (name : string) (hs : list (string * string)) : option string :=
  match hs with
  | [] => None
  | (n, v) :: hs' => if String.eqb name n then Some v else header name hs'
  end.

(** The spec's names.  Its [exchange(token, mode)] is [GustoAuth.oauth]
    with [refresh] set for the REFRESH mode; its [OAuthExchangeError] with
    a code and a description is the generic [Exception] with these two
    positional arguments. *)
Inductive mode : Type := AUTHORIZATION_CODE | REFRESH.

Definition exchange {srv : Server} {env : Environ} (token : value) (m : mode)
  : M GustoAuth.t value :=
  GustoAuth.oauth token
    match m with AUTHORIZATION_CODE => false | REFRESH => true end.

Definition OAuthExchangeError (code description : value) : exn :=
  Exception [code; description].

(** Python's generic data errors, the ones a subscript raises: a missing
    key, an index out of range, a value that cannot be subscripted so. *)
Definition generic_data_error (e : exn) : bool :=
  match e with
  | KeyError _ | IndexError | TypeError => true
  | _ => false
  end.

(** The body of the token request, by grant mode. *)
Definition token_data {env : Environ} (token : value) (refresh : bool)
  : list (string * value) :=
  [("client_id", PyStr CLIENT_ID);
   ("client_secret", PyStr SECRET);
   ("redirect_uri", PyStr CALLBACK_URL);
   ("grant_type", PyStr (if refresh then "refresh_token"
                         else "authorization_code"));
   (if refresh then "refresh_token" else "code", token)].

Definition token_request {env : Environ} (token : value) (refresh : bool)
  : Request :=
  {| req_verb := POST;
     req_url := "https://api.gusto-demo.com/oauth/token";
     req_headers := [("Content-Type", "application/json")];
     req_json := Some (PyDict (token_data token refresh)) |}.

(** What [oauth] does with a response once it is received. *)
Definition oauth_outcome (self : GustoAuth.t) (r : Response)
  : result value * GustoAuth.t :=
  match body r with
  | None => (Raise JSONDecodeError, self)
  | Some (PyDict d) =>
      match dict_get "error" d with
      | Some e =>
          match dict_get "error_description" d with
          | Some desc => (Raise (OAuthExchangeError e desc), self)
          | None => (Raise (KeyError (KStr "error_description")), self)
          end
      | None =>
          match dict_get "refresh_token" d with
          | None => (Raise (KeyError (KStr "refresh_token")), self)
          | Some rt =>
              match dict_get "access_token" d with
              | None => (Raise (KeyError (KStr "access_token")),
                         GustoAuth.mk rt)
              | Some a => (Ok a, GustoAuth.mk rt)
              end
          end
      end
  | Some _ => (Raise AttributeError, self)
  end.

(** The headers of every read of [Gusto]. *)
Definition auth_headers {bi : Builtins} (token : value) : list (string * string) :=
  [("Accept", "application/json");
   ("Authorization", "Bearer " ++ format token)].

Definition me_request {bi : Builtins} (token : value) : Request :=
  {| req_verb := GET;
     req_url := "https://api.gusto-demo.com/v1/me";
     req_headers := auth_headers token;
     req_json := None |}.

(** The read of a company-scoped resource, [kind] being ["contractors"] or
    ["employees"]. *)
Definition resource_request {bi : Builtins} (token id : value) (kind : string)
  : Request :=
  {| req_verb := GET;
     req_url := "https://api.gusto-demo.com/v1/companies/"
                ++ format id ++ "/" ++ kind;
     req_headers := auth_headers token;
     req_json := None |}.

(** The JSON path [roles.payroll_admin.companies[0].id] of a profile:
    objects down to [companies], a non-empty array there, and an object
    with an [id] as its first element. *)
Definition company_path (profile : value) : option value :=
  match profile with
  | PyDict top =>
      match dict_get "roles" top with
      | Some (PyDict roles) =>
          match dict_get "payroll_admin" roles with
          | Some (PyDict admin) =>
              match dict_get "companies" admin with
              | Some (PyList (PyDict company :: _)) => dict_get "id" company
              | _ => None
              end
          | _ => None
          end
      | _ => None
      end
  | _ => None
  end.

(** The chain of subscripts of [company_id], on the profile [me()]
    returned. *)
Definition company_of_profile (profile : value) : result value :=
  match getitem profile (KStr "roles") with
  | Raise e => Raise e
  | Ok roles =>
      match getitem roles (KStr "payroll_admin") with
      | Raise e => Raise e
      | Ok payroll_admin =>
          match getitem payroll_admin (KStr "companies") with
          | Raise e => Raise e
          | Ok companies =>
              match getitem companies (KInt 0) with
              | Raise e => Raise e
              | Ok company => getitem company (KStr "id")
              end
          end
      end
  end.

(** What [response.json()] gives or raises. *)
Definition decoded (r : Response) : result value :=
  match body r with
  | Some v => Ok v
  | None => Raise JSONDecodeError
  end.

(** The second round trip of [get_contractors] and [get_employees], once
    the company [id] is known. *)
Definition resource_round_trip {srv : Server} {bi : Builtins}
  (kind : string) (id : value) (self : Gusto.t) (w : World)
  : result value * Gusto.t * World :=
  let q := resource_request (Gusto.access_token self) id kind in
  let (o, remote') := serve (remote w) q in
  let w' := {| remote := remote'; sent := sent w ++ [q] |} in
  match o with
  | TransportFailure => (Raise RequestException, self, w')
  | Received r => (decoded r, self, w')
  end.

(** A 2xx status code. *)
Definition success_status (code : Z) : bool :=
  ((200 <=? code) && (code <? 300))%Z.

(** The frame of a method of [Gusto] run on a client constructed with
    [token]: the stored token is still [token] afterwards, and every request
    the call added to the log carries [token] in its Bearer Authorization
    header. *)
Definition keeps_token {srv : Server} {bi : Builtins} {A : Type}
  (m : M Gusto.t A) (token : value) : Prop :=
  forall self w,
    Gusto.access_token self = token ->
    Gusto.access_token (self_after (m self w)) = token /\
    exists new,
      sent (world_after (m self w)) = (sent w ++ new)%list /\
      Forall (fun q => header "Authorization" (req_headers q)
                       = Some ("Bearer " ++ format token)) new.

(* ===================================================================== *)
(** ** Module load: the environment and the authorize URL                *)
(* ===================================================================== *)

Module Urllib.

(** [urllib.parse.quote(s, safe='')]: every byte outside the always-safe
    set becomes [%XX], two upper-case hexadecimal digits. *)
Definition ALWAYS_SAFE : string :=
  "ABCDEFGHIJKLMNOPQRSTUVWXYZabcdefghijklmnopqrstuvwxyz0123456789_.-~".

Definition always_safe (c : ascii) : bool :=
  List.existsb (Ascii.eqb c) (list_ascii_of_string ALWAYS_SAFE).

Definition hex_digit (n : nat) : ascii :=
  match String.get n "0123456789ABCDEF" with
  | Some c => c
  | None => "0"%char
  end.

Definition quote_byte (c : ascii) : string :=
  if always_safe c then String c EmptyString
  else String "%"%char
         (String (hex_digit (nat_of_ascii c / 16))
            (String (hex_digit (nat_of_ascii c mod 16)) EmptyString)).

Fixpoint quote (s : string) : string :=
  match s with
  | EmptyString => EmptyString
  | String c s' => quote_byte c ++ quote s'
  end.

End Urllib.

(** [os.environ[name]]: the value of the variable, [KeyError] when it is
    not set. *)
Fixpoint environ_getitem (environ : list (string * string)) (name : string)
  : result string :=
  match environ with
  | [] => Raise (KeyError (KStr name))
  | (n, v) :: environ' =>
      if String.eqb name n then Ok v else environ_getitem environ' name
  end.

(** The two reads of the environment the module makes when it is imported
    (gusto.py:13-14), in their order. *)
Definition load_environ (environ : list (string * string)) : result Environ :=
  match environ_getitem environ "CLIENT_ID" with
  | Raise e => Raise e
  | Ok client_id =>
      match environ_getitem environ "SECRET" with
      | Raise e => Raise e
      | Ok secret => Ok {| CLIENT_ID := client_id; SECRET := secret |}
      end
  end.

(** gusto.py:15, with the separators as the source spells them. *)
Definition AUTHORIZE_URL {env : Environ} : string :=
  BASE_URL ++ "/oauth/authorize?client_id=" ++ CLIENT_ID
  ++ "&amp;redirect_uri=" ++ Urllib.quote CALLBACK_URL
  ++ "&amp;response_type=code".

(* ===================================================================== *)
(** ** Callers: sequences of calls on one object                         *)
(* ===================================================================== *)

(** A caller that makes token exchanges one after the other on the same
    [GustoAuth] object, going on after a failed one. *)
Inductive exchange_call : Type :=
| Authorize (code : value)
| Refresh.

Definition run_exchange {srv : Server} {env : Environ} (c : exchange_call)
  : M GustoAuth.t value :=
  match c with
  | Authorize code => GustoAuth.authorize code
  | Refresh => GustoAuth.access_token
  end.

Fixpoint run_exchanges {srv : Server} {env : Environ}
  (cs : list exchange_call) (self : GustoAuth.t) (w : World)
  : GustoAuth.t * World :=
  match cs with
  | [] => (self, w)
  | c :: cs' =>
      let x := run_exchange c self w in
      run_exchanges cs' (self_after x) (world_after x)
  end.

(** A caller that makes resource reads one after the other on the same
    [Gusto] client, going on after a failed one. *)
Inductive resource_call : Type :=
| Contractors
| Employees.

Definition run_read {srv : Server} {bi : Builtins} (c : resource_call)
  : M Gusto.t value :=
  match c with
  | Contractors => Gusto.get_contractors
  | Employees => Gusto.get_employees
  end.

Fixpoint run_reads {srv : Server} {bi : Builtins}
  (cs : list resource_call) (self : Gusto.t) (w : World)
  : Gusto.t * World :=
  match cs with
  | [] => (self, w)
  | c :: cs' =>
      let x := run_read c self w in
      run_reads cs' (self_after x) (world_after x)
  end.

(** The requests of a log that go to [/v1/me]. *)
Definition is_me (q : Request) : bool :=
  String.eqb (req_url q) "https://api.gusto-demo.com/v1/me".

Definition profile_fetches (log : list Request) : nat :=
  List.length (List.filter is_me log).

(** Fixtures for concrete runs: an environment, a [repr], a world whose
    server answers from a queue, and a response with a given status code
    and JSON body. *)
Definition test_environ : Environ :=
  {| CLIENT_ID := "client-id"; SECRET := "client-secret" |}.

Definition test_builtins : Builtins :=
  {| repr := fun _ => "<object>" |}.

Definition mock (queue : list Outcome) : @World scripted :=
  @mkWorld scripted queue [].

Definition replies (status : Z) (v : value) : Outcome :=
  Received {| status_code := status; body := Some v |}.

(* ===================================================================== *)
(** ** Properties of GustoAuth                                           *)
(* ===================================================================== *)

Module GustoAuthSpec.
Import GustoAuth.

Section Facts.
Context {srv : Server} {env : Environ}.

Lemma contains_dict_get (k : string) (d : list (string * value)) :
  contains k (List.map fst d) = match dict_get k d with
                                | Some _ => true
                                | None => false
                                end.
Proof.
  induction d as [|[k' v] d IH]; simpl; [reflexivity|].
  destruct (String.eqb k k'); simpl; [reflexivity | exact IH].
Qed.

(** The dict [oauth] fills in is [token_data]. *)
Lemma oauth_data (token : value) (refresh : bool) :
  (if refresh
   then dict_set "refresh_token" token
          (dict_set "grant_type" (PyStr "refresh_token")
             [("client_id", PyStr CLIENT_ID);
              ("client_secret", PyStr SECRET);
              ("redirect_uri", PyStr CALLBACK_URL)])
   else dict_set "code" token
          (dict_set "grant_type" (PyStr "authorization_code")
             [("client_id", PyStr CLIENT_ID);
              ("client_secret", PyStr SECRET);
              ("redirect_uri", PyStr CALLBACK_URL)]))
  = token_data token refresh.
Proof. destruct refresh; reflexivity. Qed.

(** Every call of [oauth] is one round trip with [token_request], followed
    by [oauth_outcome] on the response. *)
Lemma oauth_run (token : value) (refresh : bool) (self : t) (w : World) :
  oauth token refresh self w =
  let (o, remote') := serve (remote w) (token_request token refresh) in
  let w' := {| remote := remote';
               sent := sent w ++ [token_request token refresh] |} in
  match o with
  | TransportFailure => (Raise RequestException, self, w')
  | Received r => (fst (oauth_outcome self r), snd (oauth_outcome self r), w')
  end.
Proof.
  unfold oauth. cbv zeta. rewrite oauth_data.
  unfold requests_post, bind, send.
  change (BASE_URL ++ "/oauth/token")
    with "https://api.gusto-demo.com/oauth/token".
  fold (token_request token refresh).
  destruct (serve (remote w) (token_request token refresh)) as [[r|] s'];
    [|reflexivity].
  unfold oauth_outcome, json, lift, ret, raise, put, assign.
  destruct (body r) as [[| | | | |l|d]|]; try reflexivity.
  simpl keys. cbv iota beta. rewrite contains_dict_get.
  unfold getitem.
  destruct (dict_get "error" d) as [e|].
  - destruct (dict_get "error_description" d); reflexivity.
  - destruct (dict_get "refresh_token" d) as [rt|]; [|reflexivity].
    destruct (dict_get "access_token" d); reflexivity.
Qed.

(** The call seen through its three observations, once the server's
    answer is known. *)
Lemma oauth_received (token : value) (refresh : bool) (self : t) (w : World)
  (r : Response) (s' : server_state) :
  serve (remote w) (token_request token refresh) = (Received r, s') ->
  oauth token refresh self w =
  (fst (oauth_outcome self r), snd (oauth_outcome self r),
   {| remote := s'; sent := sent w ++ [token_request token refresh] |}).
Proof. intros E. rewrite oauth_run, E. reflexivity. Qed.

Lemma oauth_transport_failure (token : value) (refresh : bool) (self : t)
  (w : World) (s' : server_state) :
  serve (remote w) (token_request token refresh) = (TransportFailure, s') ->
  oauth token refresh self w =
  (Raise RequestException, self,
   {| remote := s'; sent := sent w ++ [token_request token refresh] |}).
Proof. intros E. rewrite oauth_run, E. reflexivity. Qed.

(** Whatever the outcome, a call of [oauth] sends exactly one request,
    the token request for the token it was given. *)
Lemma oauth_sent (token : value) (refresh : bool) (self : t) (w : World) :
  sent (world_after (oauth token refresh self w)) =
  (sent w ++ [token_request token refresh])%list.
Proof.
  rewrite oauth_run.
  destruct (serve (remote w) (token_request token refresh)) as [[r|] s'];
    reflexivity.
Qed.

(** C1 (as amended): when the body of the token-endpoint response is an
    object with an [error] field, [oauth] fails, in either grant mode: with
    the generic [Exception] carrying the error code and the
    [error_description] when the body has that field too, with
    [KeyError('error_description')] when it has not; in both cases [get()]
    returns afterwards what it returned before the call. *)
Theorem oauth_error_response (token : value) (refresh : bool) (self : t)
  (w : World) (r : Response) (s' : server_state)
  (d : list (string * value)) (e : value) :
  serve (remote w) (token_request token refresh) = (Received r, s') ->
  body r = Some (PyDict d) ->
  dict_get "error" d = Some e ->
  let x := oauth token refresh self w in
  returned x =
    Raise match dict_get "error_description" d with
          | Some desc => OAuthExchangeError e desc
          | None => KeyError (KStr "error_description")
          end /\
  returned (get (self_after x) (world_after x)) = returned (get self w).
Proof.
  intros E Hb He x. subst x. rewrite (oauth_received _ _ _ _ _ _ E).
  unfold oauth_outcome. rewrite Hb, He.
  destruct (dict_get "error_description" d); split; reflexivity.
Qed.

(** C2: a successful exchange overwrites the held refresh token with the
    [refresh_token] field of the response, in either grant mode and
    whatever was held before.  For a response whose body is an object
    without [error]: once the [refresh_token] field is there, [get()]
    returns it after the call, and with an [access_token] field too the
    call returns; conversely, whenever the call returns, the body has a
    [refresh_token] field and [get()] returns it. *)
Theorem oauth_success_overwrites (token : value) (refresh : bool) (self : t)
  (w : World) (r : Response) (s' : server_state)
  (d : list (string * value)) :
  serve (remote w) (token_request token refresh) = (Received r, s') ->
  body r = Some (PyDict d) ->
  dict_get "error" d = None ->
  let x := oauth token refresh self w in
  (forall rt,
     dict_get "refresh_token" d = Some rt ->
     returned (get (self_after x) (world_after x)) = Ok rt /\
     (forall a, dict_get "access_token" d = Some a -> returned x = Ok a)) /\
  (forall a,
     returned x = Ok a ->
     exists rt,
       dict_get "refresh_token" d = Some rt /\
       returned (get (self_after x) (world_after x)) = Ok rt).
Proof.
  intros E Hb He x. subst x. rewrite (oauth_received _ _ _ _ _ _ E).
  unfold oauth_outcome. rewrite Hb, He. split.
  - intros rt Hr. rewrite Hr.
    destruct (dict_get "access_token" d) as [a'|]; (split; [reflexivity|]).
    + intros a Ha. injection Ha as <-. reflexivity.
    + discriminate.
  - intros a. destruct (dict_get "refresh_token" d) as [rt|];
      [|discriminate].
    destruct (dict_get "access_token" d); [|discriminate].
    intros _. exists rt. split; reflexivity.
Qed.


(** C4: on a successful exchange [authorize(code)] and [access_token()]
    return the [access_token] field of the token-endpoint response, and
    not its [refresh_token] field (whenever the two fields differ). *)
Theorem wrappers_return_access_token (self : t) (w : World) (code : value) :
  (forall r s' d rt a,
     serve (remote w) (token_request code false) = (Received r, s') ->
     body r = Some (PyDict d) ->
     dict_get "error" d = None ->
     dict_get "refresh_token" d = Some rt ->
     dict_get "access_token" d = Some a ->
     returned (authorize code self w) = Ok a /\
     (rt <> a -> returned (authorize code self w) <> Ok rt)) /\
  (forall r s' d rt a,
     serve (remote w) (token_request (refresh_token self) true)
       = (Received r, s') ->
     body r = Some (PyDict d) ->
     dict_get "error" d = None ->
     dict_get "refresh_token" d = Some rt ->
     dict_get "access_token" d = Some a ->
     returned (access_token self w) = Ok a /\
     (rt <> a -> returned (access_token self w) <> Ok rt)).
Proof.
  split; intros r s' d rt a E Hb He Hr Ha.
  - unfold authorize. rewrite (oauth_received _ _ _ _ _ _ E).
    unfold oauth_outcome. rewrite Hb, He, Hr, Ha. cbn.
    split; [reflexivity|]. intros N Q. apply N. now injection Q.
  - unfold access_token, bind, get, attr.
    rewrite (oauth_received _ _ _ _ _ _ E).
    unfold oauth_outcome. rewrite Hb, He, Hr, Ha. cbn.
    split; [reflexivity|]. intros N Q. apply N. now injection Q.
Qed.

(** C5: [authorize(code)] is [exchange(code, AUTHORIZATION_CODE)] and
    [access_token()] is [exchange(get(), REFRESH)].  In particular, with
    ["r1"] held and a refresh answered by
    [{access_token: "a1", refresh_token: "r2"}], [access_token()] returns
    ["a1"], [get()] then returns ["r2"], and a second [access_token()]
    sends ["r2"] as the [refresh_token] of its request body. *)
Theorem wrappers_are_exchange :
  (forall code self w,
     authorize code self w = exchange code AUTHORIZATION_CODE self w) /\
  (forall self w,
     access_token self w = (token <- get ;; exchange token REFRESH) self w) /\
  (forall self w token,
     returned (get self w) = Ok token ->
     access_token self w = exchange token REFRESH self w) /\
  (forall w s',
     serve (remote w) (token_request (PyStr "r1") true) =
       (replies 200 (PyDict [("access_token", PyStr "a1");
                             ("refresh_token", PyStr "r2")]), s') ->
     let x1 := access_token (mk (PyStr "r1")) w in
     let x2 := access_token (self_after x1) (world_after x1) in
     returned x1 = Ok (PyStr "a1") /\
     returned (get (self_after x1) (world_after x1)) = Ok (PyStr "r2") /\
     sent (world_after x2) =
       (sent w ++ [token_request (PyStr "r1") true;
                   token_request (PyStr "r2") true])%list /\
     (forall q, last (sent (world_after x2)) q =
                token_request (PyStr "r2") true) /\
     dict_get "refresh_token" (token_data (PyStr "r2") true)
       = Some (PyStr "r2")).
Proof.
  split; [reflexivity|]. split; [reflexivity|].
  split; [intros self w token Hg; injection Hg as <-; reflexivity|].
  intros w s' E x1 x2.
  assert (E1 : x1 = (Ok (PyStr "a1"), mk (PyStr "r2"),
                     {| remote := s';
                        sent := sent w ++ [token_request (PyStr "r1") true] |})).
  { subst x1. unfold access_token, bind, get, attr. cbn [refresh_token].
    rewrite (oauth_received _ _ _ _ _ _ E). reflexivity. }
  subst x2. rewrite E1. clear E1 x1.
  unfold self_after, world_after, returned. cbn [fst snd].
  assert (S2 : sent (snd (access_token (mk (PyStr "r2"))
                 {| remote := s';
                    sent := sent w ++ [token_request (PyStr "r1") true] |})) =
               (sent w ++ [token_request (PyStr "r1") true;
                           token_request (PyStr "r2") true])%list).
  { unfold access_token, bind, get, attr. cbn [refresh_token].
    change (snd ?x) with (world_after x). rewrite oauth_sent.
    cbn [sent]. rewrite <- app_assoc. reflexivity. }
  rewrite S2. repeat split.
  intros q.
  change (last (sent w ++ ([token_request (PyStr "r1") true] ++
                           [token_request (PyStr "r2") true])) q =
          token_request (PyStr "r2") true).
  rewrite app_assoc. apply last_last.
Qed.


(** C10: [__str__] returns the held refresh token itself, the value
    [get()] returns; so [str()] of an instance gives the token when it is a
    string, and fails with a [TypeError] for an instance constructed
    without a refresh token and never updated. *)
Theorem str_returns_held_token :
  (forall self w, Ok (__str__ self) = returned (get self w)) /\
  (forall s, str (__init__ (PyStr s)) = Ok s) /\
  str __init__default = Raise TypeError.
Proof. repeat split. Qed.

End Facts.

(** *** Concrete runs, against the scripted server *)

Section Runs.
#[local] Existing Instance scripted.
#[local] Existing Instance test_environ.

(** C1, the claim as stated fails: an [error] without [error_description]
    makes [oauth] fail with a [KeyError], no [Exception] carrying a code and
    a description. *)
Lemma oauth_error_without_description :
  let d := [("error", PyStr "invalid_grant")] in
  let w := mock [replies 400 (PyDict d)] in
  let x := oauth (srv := scripted) (env := test_environ)
             (PyStr "code") false (mk (PyStr "r1")) w in
  dict_get "error" d = Some (PyStr "invalid_grant") /\
  returned x = Raise (KeyError (KStr "error_description")) /\
  (forall code description,
     returned x <> Raise (OAuthExchangeError code description)).
Proof. repeat split. intros code description. discriminate. Qed.

Lemma oauth_error_response_witness :
  let d := [("error", PyStr "invalid_grant");
            ("error_description", PyStr "code expired")] in
  let w := mock [replies 400 (PyDict d)] in
  let x := oauth (srv := scripted) (env := test_environ)
             (PyStr "code") false (mk (PyStr "r1")) w in
  returned x = Raise (OAuthExchangeError (PyStr "invalid_grant")
                        (PyStr "code expired")) /\
  returned (get (self_after x) (world_after x)) = Ok (PyStr "r1").
Proof.
  exact (oauth_error_response (srv := scripted) (env := test_environ)
           (PyStr "code") false (mk (PyStr "r1"))
           (mock [replies 400 (PyDict [("error", PyStr "invalid_grant");
                    ("error_description", PyStr "code expired")])])
           _ _ _ _ eq_refl eq_refl eq_refl).
Defined.

Lemma oauth_success_overwrites_witness :
  let d := [("access_token", PyStr "a1"); ("refresh_token", PyStr "r2")] in
  let w := mock [replies 200 (PyDict d)] in
  let x := oauth (srv := scripted) (env := test_environ)
             (PyStr "r1") true (mk (PyStr "r1")) w in
  returned x = Ok (PyStr "a1") /\
  returned (get (self_after x) (world_after x)) = Ok (PyStr "r2").
Proof.
  pose proof
    (proj1 (oauth_success_overwrites (srv := scripted)
              (env := test_environ)
              (PyStr "r1") true (mk (PyStr "r1"))
              (mock [replies 200 (PyDict [("access_token", PyStr "a1");
                       ("refresh_token", PyStr "r2")])])
              _ _ _ eq_refl eq_refl eq_refl)
       (PyStr "r2") eq_refl) as [Hget Hret].
  split; [exact (Hret (PyStr "a1") eq_refl) | exact Hget].
Defined.



Lemma wrappers_return_access_token_witness :
  let d := [("access_token", PyStr "a1"); ("refresh_token", PyStr "r2")] in
  let w := mock [replies 200 (PyDict d)] in
  returned (authorize (srv := scripted) (env := test_environ)
              (PyStr "code") (mk PyNone) w) = Ok (PyStr "a1") /\
  returned (access_token (srv := scripted) (env := test_environ)
              (mk (PyStr "r1")) w) = Ok (PyStr "a1").
Proof.
  split.
  - exact (proj1 (proj1 (wrappers_return_access_token (srv := scripted)
                           (env := test_environ) (mk PyNone)
                           (mock [replies 200 (PyDict
                              [("access_token", PyStr "a1");
                               ("refresh_token", PyStr "r2")])])
                           (PyStr "code"))
                    _ _ _ _ _ eq_refl eq_refl eq_refl eq_refl eq_refl)).
  - exact (proj1 (proj2 (wrappers_return_access_token (srv := scripted)
                           (env := test_environ) (mk (PyStr "r1"))
                           (mock [replies 200 (PyDict
                              [("access_token", PyStr "a1");
                               ("refresh_token", PyStr "r2")])])
                           PyNone)
                    _ _ _ _ _ eq_refl eq_refl eq_refl eq_refl eq_refl)).
Defined.

Lemma wrappers_are_exchange_witness :
  let reply := replies 200 (PyDict [("access_token", PyStr "a1");
                                    ("refresh_token", PyStr "r2")]) in
  let w := mock [reply; reply] in
  let x1 := access_token (srv := scripted) (env := test_environ)
              (mk (PyStr "r1")) w in
  let x2 := access_token (srv := scripted) (env := test_environ)
              (self_after x1) (world_after x1) in
  returned x1 = Ok (PyStr "a1") /\
  returned (get (self_after x1) (world_after x1)) = Ok (PyStr "r2") /\
  sent (world_after x2) =
    [token_request (PyStr "r1") true; token_request (PyStr "r2") true] /\
  (forall q, last (sent (world_after x2)) q =
             token_request (PyStr "r2") true) /\
  dict_get "refresh_token" (token_data (PyStr "r2") true)
    = Some (PyStr "r2").
Proof.
  exact (proj2 (proj2 (proj2 (wrappers_are_exchange (srv := scripted)
                                (env := test_environ))))
           (mock [replies 200 (PyDict [("access_token", PyStr "a1");
                                       ("refresh_token", PyStr "r2")]);
                  replies 200 (PyDict [("access_token", PyStr "a1");
                                       ("refresh_token", PyStr "r2")])])
           _ eq_refl).
Defined.

End Runs.

End GustoAuthSpec.

(* ===================================================================== *)
(** ** Properties of Gusto                                               *)
(* ===================================================================== *)

Module GustoSpec.
Import Gusto.

Section Facts.
Context {srv : Server} {bi : Builtins}.

Lemma seq_index_head {A : Type} (x : A) (l : list A) :
  seq_index (x :: l) 0 = Some x.
Proof. reflexivity. Qed.

(** The walk down the profile succeeds exactly on the profiles that have
    the path, with the value found there. *)
Lemma company_of_profile_found (profile v : value) :
  company_path profile = Some v -> company_of_profile profile = Ok v.
Proof.
  unfold company_path, company_of_profile.
  destruct profile as [| | | | | |top]; try discriminate.
  cbn [getitem].
  destruct (dict_get "roles" top) as [[| | | | | |roles]|]; try discriminate.
  cbn [getitem].
  destruct (dict_get "payroll_admin" roles) as [[| | | | | |admin]|];
    try discriminate.
  cbn [getitem].
  destruct (dict_get "companies" admin) as [[| | | | |[|c cs]|]|];
    try discriminate.
  destruct c as [| | | | | |company]; try discriminate.
  cbn [getitem]. rewrite seq_index_head. cbn [getitem].
  intros ->. reflexivity.
Qed.

Lemma company_of_profile_missing (profile : value) :
  company_path profile = None ->
  exists e, company_of_profile profile = Raise e /\
            generic_data_error e = true.
Proof.
  unfold company_path, company_of_profile.
  destruct profile as [| | | | | |top]; cbn [getitem]; eauto.
  destruct (dict_get "roles" top) as [[| | | | | |roles]|];
    cbn [getitem]; eauto.
  destruct (dict_get "payroll_admin" roles) as [[| | | | | |admin]|];
    cbn [getitem]; eauto.
  destruct (dict_get "companies" admin) as [[| | | |s|[|c cs]|]|];
    cbn [getitem]; eauto.
  - destruct s as [|ch s]; [cbn; eauto|].
    cbn [list_ascii_of_string]. rewrite seq_index_head. cbn. eauto.
  - cbn. eauto.
  - rewrite seq_index_head.
    destruct c as [| | | | | |company]; cbn [getitem]; eauto.
    destruct (dict_get "id" company); [discriminate|eauto].
Qed.

(** [me] is one round trip with [me_request]. *)
Lemma me_run (self : t) (w : World) :
  me self w =
  let (o, remote') := serve (remote w) (me_request (access_token self)) in
  let w' := {| remote := remote';
               sent := sent w ++ [me_request (access_token self)] |} in
  match o with
  | TransportFailure => (Raise RequestException, self, w')
  | Received r => (decoded r, self, w')
  end.
Proof.
  unfold me, bind, attr, requests_get, send.
  change (BASE_URL ++ "/v1/me") with "https://api.gusto-demo.com/v1/me".
  fold (auth_headers (access_token self)).
  fold (me_request (access_token self)).
  destruct (serve (remote w) (me_request (access_token self))) as [[r|] s'];
    [|reflexivity].
  unfold json, decoded, ret, raise. destruct (body r); reflexivity.
Qed.

Lemma company_id_run (self : t) (w : World) :
  company_id self w =
  match me self w with
  | (Ok profile, self', w') => (company_of_profile profile, self', w')
  | (Raise e, self', w') => (Raise e, self', w')
  end.
Proof.
  unfold company_id, company_of_profile, bind, lift.
  destruct (me self w) as [[[profile|e] self'] w']; [|reflexivity].
  destruct (getitem profile (KStr "roles")) as [roles|]; [|reflexivity].
  destruct (getitem roles (KStr "payroll_admin")) as [admin|]; [|reflexivity].
  destruct (getitem admin (KStr "companies")) as [cs|]; [|reflexivity].
  destruct (getitem cs (KInt 0)) as [c|]; reflexivity.
Qed.

(** Both resource reads unfold the same way, up to the last segment of
    the URL. *)
Ltac resource_run kind :=
  unfold bind, attr, requests_get, send, resource_round_trip;
  match goal with
  | |- context [company_id ?self ?w] =>
      destruct (company_id self w) as [[[? | ?] ?] ?]; [|reflexivity]
  end;
  match goal with
  | |- context [serve (remote ?w1)
                  (mkRequest GET (_ ++ _ ++ format ?id ++ _)
                     [_; (_, _ ++ format (access_token ?self1))] None)] =>
      change (mkRequest GET _ _ None)
        with (resource_request (access_token self1) id kind);
      destruct (serve (remote w1)
                  (resource_request (access_token self1) id kind))
        as [[? | ] ?]; [|reflexivity]
  end;
  unfold json, decoded, ret, raise;
  match goal with
  | |- context [body ?r] => destruct (body r); reflexivity
  end.

Lemma get_contractors_run (self : t) (w : World) :
  get_contractors self w =
  match company_id self w with
  | (Ok id, self', w') => resource_round_trip "contractors" id self' w'
  | (Raise e, self', w') => (Raise e, self', w')
  end.
Proof. unfold get_contractors. resource_run "contractors". Qed.

Lemma get_employees_run (self : t) (w : World) :
  get_employees self w =
  match company_id self w with
  | (Ok id, self', w') => resource_round_trip "employees" id self' w'
  | (Raise e, self', w') => (Raise e, self', w')
  end.
Proof. unfold get_employees. resource_run "employees". Qed.

(** [company_id] once the profile has arrived. *)
Lemma company_id_received (self : t) (w : World) (r : Response)
  (s' : server_state) (profile : value) :
  serve (remote w) (me_request (access_token self)) = (Received r, s') ->
  body r = Some profile ->
  company_id self w =
  (company_of_profile profile, self,
   {| remote := s'; sent := sent w ++ [me_request (access_token self)] |}).
Proof.
  intros E Hb. rewrite company_id_run, me_run, E. unfold decoded.
  rewrite Hb. reflexivity.
Qed.

(** The shape of every run of [company_id]: the object is untouched and
    exactly the profile request is added to the log. *)
Lemma company_id_effect (self : t) (w : World) :
  self_after (company_id self w) = self /\
  sent (world_after (company_id self w)) =
    (sent w ++ [me_request (access_token self)])%list.
Proof.
  rewrite company_id_run, me_run.
  destruct (serve (remote w) (me_request (access_token self))) as [[r|] s'];
    [|split; reflexivity].
  destruct (decoded r); split; reflexivity.
Qed.

Lemma resource_round_trip_effect (kind : string) (id : value) (self : t)
  (w : World) :
  self_after (resource_round_trip kind id self w) = self /\
  sent (world_after (resource_round_trip kind id self w)) =
    (sent w ++ [resource_request (access_token self) id kind])%list.
Proof.
  unfold resource_round_trip.
  destruct (serve (remote w) (resource_request (access_token self) id kind))
    as [[r|] s']; split; reflexivity.
Qed.

(** The shape of every run of a resource read: the profile request, then
    at most one resource request, for the id the profile gave. *)
Lemma resource_effect (kind : string) (self : t) (w : World)
  (x : result value * t * World) :
  x = match company_id self w with
      | (Ok id, self', w') => resource_round_trip kind id self' w'
      | (Raise e, self', w') => (Raise e, self', w')
      end ->
  self_after x = self /\
  exists rest,
    sent (world_after x) =
      (sent w ++ me_request (access_token self) :: rest)%list /\
    ((rest = [] /\ exists e, returned x = Raise e) \/
     exists id, rest = [resource_request (access_token self) id kind]).
Proof.
  intros ->. destruct (company_id_effect self w) as [Hs Hw].
  destruct (company_id self w) as [[[id|e] self'] w'];
    cbn [self_after world_after fst snd] in Hs, Hw; subst self'.
  - destruct (resource_round_trip_effect kind id self w') as [Hs' Hw'].
    split; [exact Hs'|].
    exists [resource_request (access_token self) id kind].
    split; [|right; exists id; reflexivity].
    rewrite Hw', Hw, <- app_assoc. reflexivity.
  - split; [reflexivity|]. exists []. split; [exact Hw|].
    left. split; [reflexivity|]. exists e. reflexivity.
Qed.

Lemma company_of_profile_ok (profile id : value) :
  company_of_profile profile = Ok id -> company_path profile = Some id.
Proof.
  intros Hc. destruct (company_path profile) as [v|] eqn:Hp.
  - rewrite (company_of_profile_found _ _ Hp) in Hc. congruence.
  - destruct (company_of_profile_missing _ Hp) as (e & He & _). congruence.
Qed.

(** A resource read that returns has received a profile with the path and
    a JSON body from the resource endpoint of that company. *)
Lemma resource_returns (kind : string) (self : t) (w : World)
  (x : result value * t * World) (v : value) :
  x = match company_id self w with
      | (Ok id, self', w') => resource_round_trip kind id self' w'
      | (Raise e, self', w') => (Raise e, self', w')
      end ->
  returned x = Ok v ->
  exists r1 s1 profile id r2 s2,
    serve (remote w) (me_request (access_token self)) = (Received r1, s1) /\
    body r1 = Some profile /\
    company_path profile = Some id /\
    serve s1 (resource_request (access_token self) id kind)
      = (Received r2, s2) /\
    body r2 = Some v.
Proof.
  intros ->. rewrite company_id_run, me_run.
  destruct (serve (remote w) (me_request (access_token self)))
    as [[r1|] s1] eqn:E1; [|discriminate].
  unfold decoded. destruct (body r1) as [profile|] eqn:Hb1; [|discriminate].
  destruct (company_of_profile profile) as [id|e] eqn:Hc; [|discriminate].
  unfold resource_round_trip. cbn [remote sent].
  destruct (serve s1 (resource_request (access_token self) id kind))
    as [[r2|] s2] eqn:E2; [|discriminate].
  unfold decoded, returned. cbn [fst].
  destruct (body r2) as [v'|] eqn:Hb2; [|discriminate].
  intros Hv. injection Hv as <-.
  exists r1, s1, profile, id, r2, s2.
  auto using company_of_profile_ok.
Qed.

(** C6 (as amended): when the [/v1/me] response has the path
    [roles.payroll_admin.companies[0].id], [company_id] returns the value
    found there; when it lacks the path, [company_id] fails with the
    generic error the failing subscript raises, a [KeyError], an
    [IndexError] or a [TypeError]: [KeyError('payroll_admin')] when
    [roles] is an object without a [payroll_admin] key, [IndexError] when
    [companies] is an empty list. *)
Theorem company_id_path (self : t) (w : World) (r : Response)
  (s' : server_state) (profile : value) :
  serve (remote w) (me_request (access_token self)) = (Received r, s') ->
  body r = Some profile ->
  (forall v, company_path profile = Some v ->
             returned (company_id self w) = Ok v) /\
  (company_path profile = None ->
   exists e, returned (company_id self w) = Raise e /\
             generic_data_error e = true) /\
  (forall top roles,
     profile = PyDict top ->
     dict_get "roles" top = Some (PyDict roles) ->
     dict_get "payroll_admin" roles = None ->
     returned (company_id self w) = Raise (KeyError (KStr "payroll_admin"))) /\
  (forall top roles admin,
     profile = PyDict top ->
     dict_get "roles" top = Some (PyDict roles) ->
     dict_get "payroll_admin" roles = Some (PyDict admin) ->
     dict_get "companies" admin = Some (PyList []) ->
     returned (company_id self w) = Raise IndexError).
Proof.
  intros E Hb. rewrite (company_id_received _ _ _ _ _ E Hb).
  unfold returned. cbn [fst]. repeat split.
  - apply company_of_profile_found.
  - apply company_of_profile_missing.
  - intros top roles -> Hr Hp. unfold company_of_profile. cbn [getitem].
    rewrite Hr. cbn [getitem]. rewrite Hp. reflexivity.
  - intros top roles admin -> Hr Hp Hc. unfold company_of_profile.
    cbn [getitem]. rewrite Hr. cbn [getitem]. rewrite Hp. cbn [getitem].
    rewrite Hc. reflexivity.
Qed.

(** C7 (as amended): [me()] fails with the HTTP collaborator's exception
    when the transport fails; when a response is received it returns the
    parsed JSON body whatever the status code, and fails, with the decoding
    error, only when the body is not JSON. *)
Theorem me_returns_body (self : t) (w : World) :
  returned (me self w) =
  match fst (serve (remote w) (me_request (access_token self))) with
  | TransportFailure => Raise RequestException
  | Received r =>
      match body r with
      | Some v => Ok v
      | None => Raise JSONDecodeError
      end
  end.
Proof.
  rewrite me_run.
  destruct (serve (remote w) (me_request (access_token self))) as [[r|] s'];
    reflexivity.
Qed.

(** Every run of a resource read, by what its [company_id] step did: the
    profile request and nothing more when that step failed, with the same
    exception; the profile request and the resource request for the id
    when it returned one. *)
Lemma resource_effect_by_company (kind : string) (self : t) (w : World)
  (x : result value * t * World) :
  x = match company_id self w with
      | (Ok id, self', w') => resource_round_trip kind id self' w'
      | (Raise e, self', w') => (Raise e, self', w')
      end ->
  exists rest,
    sent (world_after x) =
      (sent w ++ me_request (access_token self) :: rest)%list /\
    profile_fetches (me_request (access_token self) :: rest) = 1 /\
    (forall e,
       returned (company_id self w) = Raise e ->
       rest = [] /\ returned x = Raise e) /\
    (forall id,
       returned (company_id self w) = Ok id ->
       rest = [resource_request (access_token self) id kind]).
Proof.
  intros ->. destruct (company_id_effect self w) as [Hs Hw].
  destruct (company_id self w) as [[[id|e] self'] w'];
    cbn [self_after world_after returned fst snd] in *; subst self'.
  - destruct (resource_round_trip_effect kind id self w') as [_ Hw'].
    exists [resource_request (access_token self) id kind].
    rewrite Hw', Hw, <- app_assoc.
    split; [reflexivity|]. split; [reflexivity|].
    split; [discriminate|]. intros id' Hi. injection Hi as <-. reflexivity.
  - exists []. split; [exact Hw|]. split; [reflexivity|].
    split; [|discriminate]. intros e' He. injection He as <-.
    split; reflexivity.
Qed.

(** C8 (as amended): every invocation of [get_contractors] or
    [get_employees] issues exactly one GET to [/v1/me].  When [company_id]
    returns an id on that call, which it does when the profile fetched by
    this very call has the path, the invocation issues exactly one GET to
    [/v1/companies/{id}/contractors] (or [.../employees]) for that id and,
    when a JSON body comes back, returns it parsed and as it is.  When
    [company_id] fails, the invocation fails with the same exception and
    issues no resource GET.  An invocation that returns has received such
    a profile and such a body. *)
Theorem resource_reads (self : t) (w : World) :
  let token := access_token self in
  (forall r1 s1 profile id r2 s2 v,
     serve (remote w) (me_request token) = (Received r1, s1) ->
     body r1 = Some profile ->
     company_path profile = Some id ->
     serve s1 (resource_request token id "contractors") = (Received r2, s2) ->
     body r2 = Some v ->
     get_contractors self w =
     (Ok v, self,
      {| remote := s2;
         sent := sent w ++ [me_request token;
                            resource_request token id "contractors"] |})) /\
  (forall r1 s1 profile id r2 s2 v,
     serve (remote w) (me_request token) = (Received r1, s1) ->
     body r1 = Some profile ->
     company_path profile = Some id ->
     serve s1 (resource_request token id "employees") = (Received r2, s2) ->
     body r2 = Some v ->
     get_employees self w =
     (Ok v, self,
      {| remote := s2;
         sent := sent w ++ [me_request token;
                            resource_request token id "employees"] |})) /\
  (forall r1 s1 profile id,
     serve (remote w) (me_request token) = (Received r1, s1) ->
     body r1 = Some profile ->
     company_path profile = Some id ->
     returned (company_id self w) = Ok id /\
     sent (world_after (get_contractors self w)) =
       (sent w ++ [me_request token;
                   resource_request token id "contractors"])%list /\
     sent (world_after (get_employees self w)) =
       (sent w ++ [me_request token;
                   resource_request token id "employees"])%list) /\
  (exists rest,
     sent (world_after (get_contractors self w)) =
       (sent w ++ me_request token :: rest)%list /\
     profile_fetches (me_request token :: rest) = 1 /\
     (forall e,
        returned (company_id self w) = Raise e ->
        rest = [] /\ returned (get_contractors self w) = Raise e) /\
     (forall id,
        returned (company_id self w) = Ok id ->
        rest = [resource_request token id "contractors"])) /\
  (exists rest,
     sent (world_after (get_employees self w)) =
       (sent w ++ me_request token :: rest)%list /\
     profile_fetches (me_request token :: rest) = 1 /\
     (forall e,
        returned (company_id self w) = Raise e ->
        rest = [] /\ returned (get_employees self w) = Raise e) /\
     (forall id,
        returned (company_id self w) = Ok id ->
        rest = [resource_request token id "employees"])) /\
  (forall v,
     returned (get_contractors self w) = Ok v ->
     exists r1 s1 profile id r2 s2,
       serve (remote w) (me_request token) = (Received r1, s1) /\
       body r1 = Some profile /\
       company_path profile = Some id /\
       serve s1 (resource_request token id "contractors")
         = (Received r2, s2) /\
       body r2 = Some v) /\
  (forall v,
     returned (get_employees self w) = Ok v ->
     exists r1 s1 profile id r2 s2,
       serve (remote w) (me_request token) = (Received r1, s1) /\
       body r1 = Some profile /\
       company_path profile = Some id /\
       serve s1 (resource_request token id "employees")
         = (Received r2, s2) /\
       body r2 = Some v).
Proof.
  intros token. subst token.
  pose proof (resource_effect_by_company "contractors" self w _
                (get_contractors_run self w)) as Kc.
  pose proof (resource_effect_by_company "employees" self w _
                (get_employees_run self w)) as Ke.
  split; [|split; [|split; [|split; [|split; [|split]]]]].
  - intros r1 s1 profile id r2 s2 v E1 Hb1 Hp E2 Hb2.
    rewrite get_contractors_run, (company_id_received _ _ _ _ _ E1 Hb1),
      (company_of_profile_found _ _ Hp).
    unfold resource_round_trip. cbn [remote sent access_token].
    rewrite E2. unfold decoded. rewrite Hb2, <- app_assoc. reflexivity.
  - intros r1 s1 profile id r2 s2 v E1 Hb1 Hp E2 Hb2.
    rewrite get_employees_run, (company_id_received _ _ _ _ _ E1 Hb1),
      (company_of_profile_found _ _ Hp).
    unfold resource_round_trip. cbn [remote sent access_token].
    rewrite E2. unfold decoded. rewrite Hb2, <- app_assoc. reflexivity.
  - intros r1 s1 profile id E1 Hb1 Hp.
    assert (Hi : returned (company_id self w) = Ok id).
    { rewrite (company_id_received _ _ _ _ _ E1 Hb1),
        (company_of_profile_found _ _ Hp). reflexivity. }
    split; [exact Hi|].
    destruct Kc as (rc & Hc & _ & _ & Rc), Ke as (re & He & _ & _ & Re).
    rewrite Hc, He, (Rc id Hi), (Re id Hi). split; reflexivity.
  - exact Kc.
  - exact Ke.
  - intros v. apply (resource_returns "contractors" self w).
    apply get_contractors_run.
  - intros v. apply (resource_returns "employees" self w).
    apply get_employees_run.
Qed.

Lemma header_authorization (token : value) :
  header "Authorization" (auth_headers token)
  = Some ("Bearer " ++ format token).
Proof. reflexivity. Qed.

(** C9: no method of [Gusto] modifies the stored access token: after
    [me()], [company_id()], [get_contractors()] or [get_employees()],
    returned or failed, the [access_token] attribute is the value given to
    the constructor, and every request the call sent carries that value in
    its Bearer Authorization header. *)
Theorem gusto_keeps_token (token : value) :
  access_token (__init__ token) = token /\
  keeps_token me token /\
  keeps_token company_id token /\
  keeps_token get_contractors token /\
  keeps_token get_employees token.
Proof.
  unfold keeps_token.
  split; [reflexivity|].
  split; [|split; [|split]]; intros self w Htok.
  - rewrite me_run. subst token.
    destruct (serve (remote w) (me_request (access_token self))) as [[r|] s'];
      (split; [reflexivity|]); exists [me_request (access_token self)];
      (split; [reflexivity|repeat constructor]).
  - destruct (company_id_effect self w) as [-> ->]. subst token.
    split; [reflexivity|]. exists [me_request (access_token self)].
    split; [reflexivity|repeat constructor].
  - destruct (resource_effect "contractors" self w _
                (get_contractors_run self w))
      as (-> & rest & -> & [[-> _]|[id ->]]); subst token;
      (split; [reflexivity|]); eexists;
      (split; [reflexivity|repeat constructor]).
  - destruct (resource_effect "employees" self w _
                (get_employees_run self w))
      as (-> & rest & -> & [[-> _]|[id ->]]); subst token;
      (split; [reflexivity|]); eexists;
      (split; [reflexivity|repeat constructor]).
Qed.

End Facts.
(** *** Concrete runs, against the scripted server *)

Section Runs.
#[local] Existing Instance scripted.
#[local] Existing Instance test_builtins.

(** C6, the claim as stated fails: a profile without a payroll admin makes
    [company_id] fail with a plain [KeyError], a profile with no company
    with a plain [IndexError]; both are generic data errors. *)
Lemma company_id_generic_errors :
  let self := __init__ (PyStr "token") in
  let no_admin := PyDict [("roles", PyDict [])] in
  let no_company :=
    PyDict [("roles", PyDict [("payroll_admin",
                               PyDict [("companies", PyList [])])])] in
  company_path no_admin = None /\
  returned (company_id self (mock [replies 200 no_admin]))
    = Raise (KeyError (KStr "payroll_admin")) /\
  generic_data_error (KeyError (KStr "payroll_admin")) = true /\
  company_path no_company = None /\
  returned (company_id self (mock [replies 200 no_company]))
    = Raise IndexError /\
  generic_data_error IndexError = true.
Proof. repeat split. Qed.

Lemma company_id_path_witness :
  let profile :=
    PyDict [("email", PyStr "admin@example.com");
            ("roles", PyDict [("payroll_admin",
               PyDict [("companies",
                  PyList [PyDict [("id", PyInt 7); ("name", PyStr "Acme")];
                          PyDict [("id", PyInt 8)]])])])] in
  returned (company_id (__init__ (PyStr "token")) (mock [replies 200 profile]))
    = Ok (PyInt 7).
Proof.
  exact (proj1 (company_id_path (__init__ (PyStr "token"))
                  (mock [replies 200 (PyDict
                     [("email", PyStr "admin@example.com");
                      ("roles", PyDict [("payroll_admin",
                         PyDict [("companies",
                            PyList [PyDict [("id", PyInt 7);
                                            ("name", PyStr "Acme")];
                                    PyDict [("id", PyInt 8)]])])])])])
                  _ _ _ eq_refl eq_refl)
           (PyInt 7) eq_refl).
Defined.

(** C7, the claim as stated fails: a 401 response with a JSON body makes
    [me()] return that body; nothing is raised. *)
Lemma me_ignores_status :
  let reply := PyDict [("message", PyStr "Unauthorized")] in
  let x := me (__init__ (PyStr "expired")) (mock [replies 401 reply]) in
  success_status 401 = false /\
  returned x = Ok reply /\
  (forall e, returned x <> Raise e).
Proof. repeat split. intros e. discriminate. Qed.

(** C8, the claim as stated fails: on a profile without a payroll admin
    the reads fail while the URL is built; one GET has been issued, the one
    to [/v1/me], no resource GET, and nothing is returned. *)
Lemma reads_without_company :
  let self := __init__ (PyStr "token") in
  let w := mock [replies 200 (PyDict [("roles", PyDict [])]);
                 replies 200 (PyList [])] in
  let xc := get_contractors self w in
  let xe := get_employees self w in
  returned xc = Raise (KeyError (KStr "payroll_admin")) /\
  sent (world_after xc) = [me_request (PyStr "token")] /\
  (forall id,
     ~ In (resource_request (PyStr "token") id "contractors")
          (sent (world_after xc))) /\
  (forall v, returned xc <> Ok v) /\
  returned xe = Raise (KeyError (KStr "payroll_admin")) /\
  sent (world_after xe) = [me_request (PyStr "token")] /\
  (forall id,
     ~ In (resource_request (PyStr "token") id "employees")
          (sent (world_after xe))) /\
  (forall v, returned xe <> Ok v).
Proof.
  repeat apply conj; try reflexivity; try (intros v; discriminate).
  - intros id [Q|[]]. discriminate Q.
  - intros id [Q|[]]. discriminate Q.
Qed.

Lemma resource_reads_witness :
  let self := __init__ (PyStr "token") in
  let profile :=
    PyDict [("roles", PyDict [("payroll_admin",
               PyDict [("companies", PyList [PyDict [("id", PyInt 7)]])])])] in
  let contractors := PyList [PyDict [("first_name", PyStr "Ada")]] in
  get_contractors self (mock [replies 200 profile; replies 200 contractors])
  = (Ok contractors, self,
     @mkWorld scripted []
       [me_request (PyStr "token");
        {| req_verb := GET;
           req_url := "https://api.gusto-demo.com/v1/companies/7/contractors";
           req_headers := [("Accept", "application/json");
                           ("Authorization", "Bearer token")];
           req_json := None |}]).
Proof.
  exact (proj1 (resource_reads (__init__ (PyStr "token"))
                  (mock [replies 200 (PyDict [("roles",
                           PyDict [("payroll_admin",
                             PyDict [("companies",
                               PyList [PyDict [("id", PyInt 7)]])])])]);
                         replies 200
                           (PyList [PyDict [("first_name", PyStr "Ada")]])]))
           _ _ _ (PyInt 7) _ _ _ eq_refl eq_refl eq_refl eq_refl eq_refl).
Defined.

(** No memoization: two calls in a row fetch the profile twice, and the
    second resource request is for the company of the second profile. *)
Example get_employees_refetches :
  let self := __init__ (PyStr "token") in
  let profile id :=
    PyDict [("roles", PyDict [("payroll_admin",
               PyDict [("companies", PyList [PyDict [("id", id)]])])])] in
  let w := mock [replies 200 (profile (PyInt 7)); replies 200 (PyList []);
                 replies 200 (profile (PyStr "c-8")); replies 200 (PyList [])] in
  let x1 := get_employees self w in
  let x2 := get_employees (self_after x1) (world_after x1) in
  List.map req_url (sent (world_after x2)) =
    ["https://api.gusto-demo.com/v1/me";
     "https://api.gusto-demo.com/v1/companies/7/employees";
     "https://api.gusto-demo.com/v1/me";
     "https://api.gusto-demo.com/v1/companies/c-8/employees"].
Proof. reflexivity. Qed.

Lemma gusto_keeps_token_witness :
  let self := __init__ (PyStr "token") in
  let w := mock [TransportFailure] in
  access_token (self_after (get_contractors self w)) = PyStr "token" /\
  exists new,
    sent (world_after (get_contractors self w)) = (sent w ++ new)%list /\
    Forall (fun q => header "Authorization" (req_headers q)
                     = Some "Bearer token") new.
Proof.
  exact (proj1 (proj2 (proj2 (proj2 (gusto_keeps_token (PyStr "token")))))
           (__init__ (PyStr "token")) (mock [TransportFailure]) eq_refl).
Defined.

End Runs.

End GustoSpec.

(* ===================================================================== *)
(** ** Further properties of GustoAuth                                   *)
(* ===================================================================== *)

Module GustoAuthMore.
Import GustoAuth.

Section Facts.
Context {srv : Server} {env : Environ}.

(** [put] then [get]: whatever was held, [get()] returns the token just
    put, the last one when [put] is called twice; neither sends a request
    and [get] leaves the object as it is; after [put] of a string, [str()]
    of the object is that string. *)
Theorem put_then_get (self : t) (w : World) (token : value) :
  let x := (put token ;;; get) self w in
  returned x = Ok token /\
  world_after x = w /\
  (forall token',
     returned ((put token' ;;; put token ;;; get) self w) = Ok token) /\
  self_after (get self w) = self /\
  world_after (get self w) = w /\
  (forall s, str (self_after (put (PyStr s) self w)) = Ok s).
Proof. repeat split. Qed.

(** The one request of a call of [oauth], sent whatever the outcome: a
    POST to [BASE_URL/oauth/token] with a JSON content type, whose body
    has five entries: the client id, the client secret, the callback URL,
    the grant type of the mode, and the token under [refresh_token] in
    refresh mode and under [code] (the module's [KEY_AUTHCODE]) otherwise,
    never under both. *)
Theorem oauth_request_shape (token : value) (refresh : bool) (self : t)
  (w : World) :
  exists q d,
    sent (world_after (oauth token refresh self w)) = (sent w ++ [q])%list /\
    req_verb q = POST /\
    req_url q = BASE_URL ++ "/oauth/token" /\
    req_headers q = [("Content-Type", "application/json")] /\
    req_json q = Some (PyDict d) /\
    List.length d = 5 /\
    dict_get "client_id" d = Some (PyStr CLIENT_ID) /\
    dict_get "client_secret" d = Some (PyStr SECRET) /\
    dict_get "redirect_uri" d = Some (PyStr CALLBACK_URL) /\
    dict_get "grant_type" d =
      Some (PyStr (if refresh then "refresh_token"
                   else "authorization_code")) /\
    dict_get "refresh_token" d = (if refresh then Some token else None) /\
    dict_get KEY_AUTHCODE d = (if refresh then None else Some token).
Proof.
  exists (token_request token refresh), (token_data token refresh).
  split; [apply GustoAuthSpec.oauth_sent|].
  destruct refresh; repeat split.
Qed.

(** What [oauth] raises on a response it cannot use, the held token being
    left as it was in each case: [RequestException] when the transport
    fails, [JSONDecodeError] when the body is not JSON, [AttributeError]
    when the JSON body is not an object, [KeyError('refresh_token')] when
    the object has neither [error] nor [refresh_token], with or without an
    [access_token]. *)
Theorem oauth_malformed_response (token : value) (refresh : bool) (self : t)
  (w : World) :
  let x := oauth token refresh self w in
  (forall s',
     serve (remote w) (token_request token refresh) = (TransportFailure, s') ->
     returned x = Raise RequestException /\ self_after x = self) /\
  (forall r s',
     serve (remote w) (token_request token refresh) = (Received r, s') ->
     body r = None ->
     returned x = Raise JSONDecodeError /\ self_after x = self) /\
  (forall r s' v,
     serve (remote w) (token_request token refresh) = (Received r, s') ->
     body r = Some v ->
     (forall d, v <> PyDict d) ->
     returned x = Raise AttributeError /\ self_after x = self) /\
  (forall r s' d,
     serve (remote w) (token_request token refresh) = (Received r, s') ->
     body r = Some (PyDict d) ->
     dict_get "error" d = None ->
     dict_get "refresh_token" d = None ->
     returned x = Raise (KeyError (KStr "refresh_token")) /\
     self_after x = self).
Proof.
  intros x. subst x. repeat apply conj.
  - intros s' E. rewrite (GustoAuthSpec.oauth_transport_failure _ _ _ _ _ E).
    split; reflexivity.
  - intros r s' E Hb. rewrite (GustoAuthSpec.oauth_received _ _ _ _ _ _ E).
    unfold oauth_outcome. rewrite Hb. split; reflexivity.
  - intros r s' v E Hb Hv.
    rewrite (GustoAuthSpec.oauth_received _ _ _ _ _ _ E).
    unfold oauth_outcome. rewrite Hb.
    destruct v as [| | | | | |d]; try (split; reflexivity).
    now elim (Hv d).
  - intros r s' d E Hb He Hr.
    rewrite (GustoAuthSpec.oauth_received _ _ _ _ _ _ E).
    unfold oauth_outcome. rewrite Hb, He, Hr. split; reflexivity.
Qed.

(** [oauth] never looks at the status code: two responses with the same
    JSON body give the same result and leave the same token held. *)
Theorem oauth_ignores_status (token : value) (refresh : bool) (self : t)
  (w1 w2 : World) (r1 r2 : Response) (s1 s2 : server_state) :
  serve (remote w1) (token_request token refresh) = (Received r1, s1) ->
  serve (remote w2) (token_request token refresh) = (Received r2, s2) ->
  body r1 = body r2 ->
  returned (oauth token refresh self w1) =
    returned (oauth token refresh self w2) /\
  self_after (oauth token refresh self w1) =
    self_after (oauth token refresh self w2).
Proof.
  intros E1 E2 Hb.
  rewrite (GustoAuthSpec.oauth_received _ _ _ _ _ _ E1),
    (GustoAuthSpec.oauth_received _ _ _ _ _ _ E2).
  unfold oauth_outcome. rewrite Hb. split; reflexivity.
Qed.

(** [authorize] does not depend on the token held: two objects give the
    same result, the same world and, when the call returns, the same held
    token.  [access_token] sends the held token as it is, with no check of
    its own: for an object holding [None] the request still goes out, with
    [None] as its [refresh_token]. *)
Theorem wrappers_and_held_token (w : World) :
  (forall code self1 self2,
     let x1 := authorize code self1 w in
     let x2 := authorize code self2 w in
     returned x1 = returned x2 /\
     world_after x1 = world_after x2 /\
     (forall a, returned x1 = Ok a -> self_after x1 = self_after x2)) /\
  (forall self,
     sent (world_after (access_token self w)) =
       (sent w ++ [token_request (refresh_token self) true])%list) /\
  sent (world_after (access_token __init__default w)) =
    (sent w ++ [token_request PyNone true])%list.
Proof.
  repeat apply conj.
  - intros code self1 self2 x1 x2. subst x1 x2. unfold authorize.
    rewrite !GustoAuthSpec.oauth_run.
    destruct (serve (remote w) (token_request code false)) as [[r|] s'].
    + unfold oauth_outcome, returned, self_after, world_after. cbn [fst snd].
      destruct (body r) as [[| | | | |l|d]|];
        try (repeat split; discriminate).
      destruct (dict_get "error" d).
      { destruct (dict_get "error_description" d);
          repeat split; discriminate. }
      destruct (dict_get "refresh_token" d);
        [|repeat split; discriminate].
      destruct (dict_get "access_token" d); repeat split.
    + repeat split. discriminate.
  - intros self. unfold access_token, bind, get, attr.
    apply GustoAuthSpec.oauth_sent.
  - unfold access_token, bind, get, attr.
    apply GustoAuthSpec.oauth_sent.
Qed.

(** Rotation: once a call of [oauth] has read a [refresh_token] field from
    a response without [error], the next [access_token()] sends that field,
    also when the first call then failed for want of an [access_token];
    after a response with an [error] field, the next [access_token()] sends
    the token that was held before. *)
Theorem next_refresh_token (token : value) (refresh : bool) (self : t)
  (w : World) (r : Response) (s' : server_state)
  (d : list (string * value)) :
  serve (remote w) (token_request token refresh) = (Received r, s') ->
  body r = Some (PyDict d) ->
  let x := oauth token refresh self w in
  let log := sent (world_after (access_token (self_after x) (world_after x))) in
  (forall rt,
     dict_get "error" d = None ->
     dict_get "refresh_token" d = Some rt ->
     log = (sent w ++ [token_request token refresh;
                       token_request rt true])%list) /\
  (forall e,
     dict_get "error" d = Some e ->
     log = (sent w ++ [token_request token refresh;
                       token_request (refresh_token self) true])%list).
Proof.
  intros E Hb x log. subst log x.
  unfold access_token, bind, get, attr.
  rewrite GustoAuthSpec.oauth_sent,
    (GustoAuthSpec.oauth_received _ _ _ _ _ _ E).
  unfold oauth_outcome, self_after, world_after. rewrite Hb.
  cbn [fst snd sent]. split.
  - intros rt He Hr. rewrite He, Hr, <- app_assoc.
    destruct (dict_get "access_token" d); reflexivity.
  - intros e He. rewrite He, <- app_assoc.
    destruct (dict_get "error_description" d); reflexivity.
Qed.

(** No retry and no reuse: a caller that makes [n] calls of [authorize]
    and [access_token] on one object, whatever their outcomes, has sent
    exactly [n] requests, each a POST to the token endpoint. *)
Theorem exchanges_one_request_each (cs : list exchange_call) (self : t)
  (w : World) :
  exists new,
    sent (snd (run_exchanges cs self w)) = (sent w ++ new)%list /\
    List.length new = List.length cs /\
    Forall (fun q => req_verb q = POST /\
                     req_url q = BASE_URL ++ "/oauth/token") new.
Proof.
  revert self w. induction cs as [|c cs IH]; intros self w.
  - exists []. cbn. rewrite app_nil_r. auto.
  - cbn [run_exchanges].
    set (x := run_exchange c self w).
    assert (Hx : exists q, sent (world_after x) = (sent w ++ [q])%list /\
                           req_verb q = POST /\
                           req_url q = BASE_URL ++ "/oauth/token").
    { subst x. destruct c as [code|]; cbn [run_exchange].
      - exists (token_request code false).
        unfold authorize. rewrite GustoAuthSpec.oauth_sent. auto.
      - exists (token_request (refresh_token self) true).
        unfold access_token, bind, get, attr.
        rewrite GustoAuthSpec.oauth_sent. auto. }
    destruct Hx as (q & Hs & Hq).
    destruct (IH (self_after x) (world_after x)) as (new & Hn & Hl & Hf).
    exists (q :: new). rewrite Hn, Hs, <- app_assoc. cbn.
    split; [reflexivity|]. split; [now rewrite Hl|]. constructor; assumption.
Qed.

End Facts.
(** *** Concrete runs, against the scripted server *)

Section Runs.
#[local] Existing Instance scripted.
#[local] Existing Instance test_environ.

Lemma oauth_malformed_response_witness :
  let self := mk (PyStr "r1") in
  let x := oauth (PyStr "code") false self (mock []) in
  let y := oauth (PyStr "code") false self
             (mock [replies 200 (PyDict [("access_token", PyStr "a1")])]) in
  (returned x = Raise RequestException /\ self_after x = self) /\
  (returned y = Raise (KeyError (KStr "refresh_token")) /\
   self_after y = self).
Proof.
  split.
  - exact (proj1 (oauth_malformed_response (PyStr "code") false
                    (mk (PyStr "r1")) (mock []))
             _ eq_refl).
  - exact (proj2 (proj2 (proj2
             (oauth_malformed_response (PyStr "code") false
                (mk (PyStr "r1"))
                (mock [replies 200 (PyDict [("access_token", PyStr "a1")])]))))
             _ _ _ eq_refl eq_refl eq_refl eq_refl).
Defined.

Lemma oauth_ignores_status_witness :
  let reply :=
    PyDict [("access_token", PyStr "a1"); ("refresh_token", PyStr "r2")] in
  let self := mk (PyStr "r1") in
  returned (oauth (PyStr "r1") true self (mock [replies 200 reply])) =
    returned (oauth (PyStr "r1") true self (mock [replies 503 reply])) /\
  self_after (oauth (PyStr "r1") true self (mock [replies 200 reply])) =
    self_after (oauth (PyStr "r1") true self (mock [replies 503 reply])).
Proof.
  exact (oauth_ignores_status (PyStr "r1") true (mk (PyStr "r1"))
           (mock [replies 200 (PyDict [("access_token", PyStr "a1");
                                       ("refresh_token", PyStr "r2")])])
           (mock [replies 503 (PyDict [("access_token", PyStr "a1");
                                       ("refresh_token", PyStr "r2")])])
           _ _ _ _ eq_refl eq_refl eq_refl).
Defined.

Lemma wrappers_and_held_token_witness :
  let w := mock [replies 200 (PyDict [("access_token", PyStr "a1");
                                      ("refresh_token", PyStr "r2")])] in
  self_after (authorize (PyStr "code") (mk (PyStr "r1")) w) =
  self_after (authorize (PyStr "code") (mk PyNone) w).
Proof.
  exact (proj2 (proj2 (proj1 (wrappers_and_held_token
                  (mock [replies 200 (PyDict [("access_token", PyStr "a1");
                                              ("refresh_token", PyStr "r2")])]))
                  (PyStr "code") (mk (PyStr "r1")) (mk PyNone)))
           (PyStr "a1") eq_refl).
Defined.

Lemma next_refresh_token_witness :
  let w := mock [replies 200 (PyDict [("refresh_token", PyStr "r2")])] in
  let x := authorize (PyStr "code") (mk PyNone) w in
  sent (world_after (access_token (self_after x) (world_after x))) =
  [token_request (PyStr "code") false; token_request (PyStr "r2") true].
Proof.
  exact (proj1 (next_refresh_token (PyStr "code") false (mk PyNone)
                  (mock [replies 200 (PyDict [("refresh_token", PyStr "r2")])])
                  _ _ _ eq_refl eq_refl)
           (PyStr "r2") eq_refl eq_refl).
Defined.

End Runs.

End GustoAuthMore.

(* ===================================================================== *)
(** ** Further properties of Gusto                                       *)
(* ===================================================================== *)

Module GustoMore.
Import Gusto.

Section Facts.
Context {srv : Server} {bi : Builtins}.

(** [company_id] reads the first company only: with a non-empty list of
    companies under [roles.payroll_admin], its result is the subscript
    [["id"]] of the first element, whatever the other elements are; a first
    company without an [id] gives [KeyError('id')]. *)
Theorem company_id_first_company (self : t) (w : World) (r : Response)
  (s' : server_state) (top roles admin : list (string * value))
  (c : value) (rest : list value) :
  serve (remote w) (me_request (access_token self)) = (Received r, s') ->
  body r = Some (PyDict top) ->
  dict_get "roles" top = Some (PyDict roles) ->
  dict_get "payroll_admin" roles = Some (PyDict admin) ->
  dict_get "companies" admin = Some (PyList (c :: rest)) ->
  returned (company_id self w) = getitem c (KStr "id") /\
  (forall company,
     c = PyDict company ->
     dict_get "id" company = None ->
     returned (company_id self w) = Raise (KeyError (KStr "id"))).
Proof.
  intros E Hb Hr Hp Hc.
  rewrite (GustoSpec.company_id_received _ _ _ _ _ E Hb).
  unfold returned, company_of_profile. cbn [fst getitem].
  rewrite Hr. cbn [getitem]. rewrite Hp. cbn [getitem]. rewrite Hc.
  cbn [getitem]. rewrite GustoSpec.seq_index_head. split; [reflexivity|].
  intros company -> Hi. cbn [getitem]. rewrite Hi. reflexivity.
Qed.

(** The other failures of [company_id]: the exception of [me()] when the
    transport fails or the body is not JSON; [KeyError] naming the key when
    [roles] or [companies] is missing; [TypeError] when [roles] or
    [payroll_admin] is [null].  In every case, and on success, the call
    sends the one profile request and nothing else. *)
Theorem company_id_failures (self : t) (w : World) :
  let x := company_id self w in
  let q := me_request (access_token self) in
  sent (world_after x) = (sent w ++ [q])%list /\
  (forall s',
     serve (remote w) q = (TransportFailure, s') ->
     returned x = Raise RequestException) /\
  (forall r s',
     serve (remote w) q = (Received r, s') ->
     body r = None ->
     returned x = Raise JSONDecodeError) /\
  (forall r s' top,
     serve (remote w) q = (Received r, s') ->
     body r = Some (PyDict top) ->
     (dict_get "roles" top = None ->
      returned x = Raise (KeyError (KStr "roles"))) /\
     (dict_get "roles" top = Some PyNone ->
      returned x = Raise TypeError) /\
     (forall roles,
        dict_get "roles" top = Some (PyDict roles) ->
        dict_get "payroll_admin" roles = Some PyNone ->
        returned x = Raise TypeError) /\
     (forall roles admin,
        dict_get "roles" top = Some (PyDict roles) ->
        dict_get "payroll_admin" roles = Some (PyDict admin) ->
        dict_get "companies" admin = None ->
        returned x = Raise (KeyError (KStr "companies")))).
Proof.
  intros x q. subst x q.
  split; [apply GustoSpec.company_id_effect|].
  split; [|split]; [intros s' E|intros r s' E Hb|intros r s' top E Hb].
  - rewrite GustoSpec.company_id_run, GustoSpec.me_run, E. reflexivity.
  - rewrite GustoSpec.company_id_run, GustoSpec.me_run, E.
    unfold decoded. rewrite Hb. reflexivity.
  - rewrite (GustoSpec.company_id_received _ _ _ _ _ E Hb).
    unfold returned, company_of_profile. cbn [fst getitem].
    repeat apply conj.
    + intros Hr. rewrite Hr. reflexivity.
    + intros Hr. rewrite Hr. reflexivity.
    + intros roles Hr Hp. rewrite Hr. cbn [getitem]. rewrite Hp.
      reflexivity.
    + intros roles admin Hr Hp Hc. rewrite Hr. cbn [getitem]. rewrite Hp.
      cbn [getitem]. rewrite Hc. reflexivity.
Qed.

(** A resource read after its [company_id] step, in the form both methods
    share. *)
Lemma resource_failure_cases (kind : string) (self : t) (w : World)
  (x : result value * t * World) :
  x = match company_id self w with
      | (Ok id, self', w') => resource_round_trip kind id self' w'
      | (Raise e, self', w') => (Raise e, self', w')
      end ->
  (forall e,
     returned (company_id self w) = Raise e ->
     returned x = Raise e /\
     world_after x = world_after (company_id self w)) /\
  (forall id,
     returned (company_id self w) = Ok id ->
     let q := resource_request (access_token self) id kind in
     let w1 := world_after (company_id self w) in
     sent (world_after x) =
       (sent w ++ [me_request (access_token self); q])%list /\
     (forall s2,
        serve (remote w1) q = (TransportFailure, s2) ->
        returned x = Raise RequestException) /\
     (forall r2 s2,
        serve (remote w1) q = (Received r2, s2) ->
        body r2 = None ->
        returned x = Raise JSONDecodeError)).
Proof.
  intros ->. destruct (GustoSpec.company_id_effect self w) as [Hs Hw].
  destruct (company_id self w) as [[[id|e] self'] w'];
    cbn [self_after world_after returned fst snd] in *; subst self'.
  - split; [discriminate|]. intros id' Hi. injection Hi as <-.
    cbv zeta. unfold resource_round_trip.
    destruct (serve (remote w')
                (resource_request (access_token self) id kind))
      as [[r2|] s2] eqn:E2; cbn [fst snd sent];
      rewrite Hw, <- app_assoc; (split; [reflexivity|]); split.
    + discriminate.
    + intros r2' s2' Q Hb. injection Q as <- <-.
      unfold decoded. rewrite Hb. reflexivity.
    + reflexivity.
    + discriminate.
  - split; [|discriminate]. intros e' He. injection He as <-.
    split; reflexivity.
Qed.

(** Failures of the resource reads.  When [company_id] fails, the read
    fails with the same exception and has sent nothing after the profile
    request.  When [company_id] returns, the read has sent exactly the
    profile request and the resource request, and it fails with
    [RequestException] when the transport of the second fails and with
    [JSONDecodeError] when its body is not JSON. *)
Theorem resource_failures (self : t) (w : World) :
  let token := access_token self in
  let w1 := world_after (company_id self w) in
  (forall e,
     returned (company_id self w) = Raise e ->
     (returned (get_contractors self w) = Raise e /\
      world_after (get_contractors self w) = w1) /\
     (returned (get_employees self w) = Raise e /\
      world_after (get_employees self w) = w1)) /\
  (forall id,
     returned (company_id self w) = Ok id ->
     let qc := resource_request token id "contractors" in
     let qe := resource_request token id "employees" in
     sent (world_after (get_contractors self w)) =
       (sent w ++ [me_request token; qc])%list /\
     sent (world_after (get_employees self w)) =
       (sent w ++ [me_request token; qe])%list /\
     (forall s2,
        serve (remote w1) qc = (TransportFailure, s2) ->
        returned (get_contractors self w) = Raise RequestException) /\
     (forall s2,
        serve (remote w1) qe = (TransportFailure, s2) ->
        returned (get_employees self w) = Raise RequestException) /\
     (forall r2 s2,
        serve (remote w1) qc = (Received r2, s2) ->
        body r2 = None ->
        returned (get_contractors self w) = Raise JSONDecodeError) /\
     (forall r2 s2,
        serve (remote w1) qe = (Received r2, s2) ->
        body r2 = None ->
        returned (get_employees self w) = Raise JSONDecodeError)).
Proof.
  intros token w1. subst token w1.
  pose proof (resource_failure_cases "contractors" self w _
                (GustoSpec.get_contractors_run self w)) as [Fc Rc].
  pose proof (resource_failure_cases "employees" self w _
                (GustoSpec.get_employees_run self w)) as [Fe Re].
  split.
  - intros e He. split; [exact (Fc e He) | exact (Fe e He)].
  - intros id Hi qc qe. subst qc qe.
    destruct (Rc id Hi) as (Sc & Tc & Jc).
    destruct (Re id Hi) as (Se & Te & Je).
    repeat apply conj; assumption.
Qed.

Lemma profile_fetches_app (l1 l2 : list Request) :
  profile_fetches (l1 ++ l2) = profile_fetches l1 + profile_fetches l2.
Proof.
  unfold profile_fetches. rewrite filter_app, length_app. reflexivity.
Qed.

Lemma is_me_resource (token id : value) (kind : string) :
  is_me (resource_request token id kind) = false.
Proof. reflexivity. Qed.

(** What one resource read adds to the log: one profile fetch, at most two
    requests, all of them GETs without a body under the client's headers;
    and the client is left as it was. *)
Lemma read_effect (c : resource_call) (self : t) (w : World) :
  self_after (run_read c self w) = self /\
  exists new,
    sent (world_after (run_read c self w)) = (sent w ++ new)%list /\
    profile_fetches new = 1 /\
    List.length new <= 2 /\
    Forall (fun q => req_verb q = GET /\ req_json q = None /\
                     req_headers q = auth_headers (access_token self)) new.
Proof.
  assert (G : forall kind x,
             x = match company_id self w with
                 | (Ok id, self', w') =>
                     resource_round_trip kind id self' w'
                 | (Raise e, self', w') => (Raise e, self', w')
                 end ->
             self_after x = self /\
             exists new,
               sent (world_after x) = (sent w ++ new)%list /\
               profile_fetches new = 1 /\
               List.length new <= 2 /\
               Forall (fun q => req_verb q = GET /\ req_json q = None /\
                                req_headers q
                                = auth_headers (access_token self)) new).
  { intros kind x Hx.
    destruct (GustoSpec.resource_effect kind self w x Hx)
      as (Hs & rest & Hw & [[-> _]|[id ->]]); (split; [exact Hs|]);
      eexists; (split; [exact Hw|]); repeat split;
      try (cbn; lia); repeat constructor. }
  destruct c; cbn [run_read].
  - exact (G "contractors" _ (GustoSpec.get_contractors_run self w)).
  - exact (G "employees" _ (GustoSpec.get_employees_run self w)).
Qed.

(** No memoization: a caller that makes [n] resource reads on one client,
    in any order and whatever their outcomes, has fetched the profile
    exactly [n] times and sent at most [2n] requests, every one a GET
    without a body under the client's two headers; the client is the same
    object at the end. *)
Theorem reads_refetch_profile (cs : list resource_call) (self : t)
  (w : World) :
  fst (run_reads cs self w) = self /\
  exists new,
    sent (snd (run_reads cs self w)) = (sent w ++ new)%list /\
    profile_fetches new = List.length cs /\
    List.length new <= 2 * List.length cs /\
    Forall (fun q => req_verb q = GET /\ req_json q = None /\
                     req_headers q = auth_headers (access_token self)) new.
Proof.
  revert w. induction cs as [|c cs IH]; intros w.
  - split; [reflexivity|]. exists []. cbn. rewrite app_nil_r. auto.
  - cbn [run_reads].
    destruct (read_effect c self w) as (Hs & new1 & Hw1 & Hp1 & Hl1 & Hf1).
    rewrite Hs.
    destruct (IH (world_after (run_read c self w)))
      as (Hs2 & new2 & Hw2 & Hp2 & Hl2 & Hf2).
    split; [exact Hs2|]. exists (new1 ++ new2)%list.
    rewrite Hw2, Hw1, <- app_assoc, profile_fetches_app, length_app, Hp1, Hp2.
    split; [reflexivity|]. split; [reflexivity|].
    split; [cbn [List.length]; lia|]. apply Forall_app. split; assumption.
Qed.

End Facts.

Section Integration.
Context {srv : Server} {env : Environ} {bi : Builtins}.

(** From [authorize] to the first read: the value [authorize(code)]
    returns, put in a client, is the one [me()] sends in its Bearer
    header, formatted as an f-string formats it and with no check of its
    type; a provider answering [access_token: null] yields the header
    [Bearer None]. *)
Theorem authorized_client_sends_token (code : value) (auth : GustoAuth.t)
  (w : World) (r : Response) (s' : server_state)
  (d : list (string * value)) (rt a : value) :
  serve (remote w) (token_request code false) = (Received r, s') ->
  body r = Some (PyDict d) ->
  dict_get "error" d = None ->
  dict_get "refresh_token" d = Some rt ->
  dict_get "access_token" d = Some a ->
  let x := GustoAuth.authorize code auth w in
  let y := me (__init__ a) (world_after x) in
  returned x = Ok a /\
  exists q,
    sent (world_after y) = (sent w ++ [token_request code false; q])%list /\
    header "Authorization" (req_headers q) = Some ("Bearer " ++ format a) /\
    (forall s, a = PyStr s ->
               header "Authorization" (req_headers q) = Some ("Bearer " ++ s)) /\
    (a = PyNone ->
     header "Authorization" (req_headers q) = Some "Bearer None").
Proof.
  intros E Hb He Hr Ha x y. subst y x. unfold GustoAuth.authorize.
  rewrite (GustoAuthSpec.oauth_received _ _ _ _ _ _ E).
  unfold oauth_outcome. rewrite Hb, He, Hr, Ha.
  split; [reflexivity|]. exists (me_request a).
  rewrite GustoSpec.me_run. unfold world_after. cbn [fst snd remote sent].
  split.
  - destruct (serve s' (me_request (access_token (__init__ a))))
      as [[r2|] s2]; cbn [snd sent]; rewrite <- app_assoc; reflexivity.
  - split; [reflexivity|]. split; [intros s ->; reflexivity|].
    intros ->. reflexivity.
Qed.

End Integration.
(** *** Concrete runs, against the scripted server *)

Section Runs.
#[local] Existing Instance scripted.
#[local] Existing Instance test_environ.
#[local] Existing Instance test_builtins.

Lemma company_id_first_company_witness :
  let profile :=
    PyDict [("roles", PyDict [("payroll_admin",
               PyDict [("companies",
                  PyList [PyDict [("name", PyStr "Acme")];
                          PyDict [("id", PyInt 8)]])])])] in
  returned (company_id (__init__ (PyStr "token")) (mock [replies 200 profile]))
  = Raise (KeyError (KStr "id")).
Proof.
  exact (proj2 (company_id_first_company (__init__ (PyStr "token"))
                  (mock [replies 200 (PyDict [("roles",
                     PyDict [("payroll_admin",
                       PyDict [("companies",
                          PyList [PyDict [("name", PyStr "Acme")];
                                  PyDict [("id", PyInt 8)]])])])])])
                  _ _ _ _ _ _ _ eq_refl eq_refl eq_refl eq_refl eq_refl)
           _ eq_refl eq_refl).
Defined.

Lemma company_id_failures_witness :
  returned (company_id (__init__ (PyStr "token"))
              (mock [replies 200 (PyDict [("roles", PyNone)])]))
  = Raise TypeError.
Proof.
  exact (proj1 (proj2 (proj2 (proj2 (proj2
           (company_id_failures (__init__ (PyStr "token"))
              (mock [replies 200 (PyDict [("roles", PyNone)])]))))
           _ _ _ eq_refl eq_refl))
           eq_refl).
Defined.

Lemma resource_failures_witness :
  let profile :=
    PyDict [("roles", PyDict [("payroll_admin",
               PyDict [("companies", PyList [PyDict [("id", PyInt 7)]])])])] in
  returned (get_employees (__init__ (PyStr "token"))
              (mock [replies 200 profile]))
  = Raise RequestException.
Proof.
  exact (proj1 (proj2 (proj2 (proj2
           (proj2 (resource_failures (__init__ (PyStr "token"))
                     (mock [replies 200 (PyDict [("roles",
                        PyDict [("payroll_admin",
                          PyDict [("companies",
                             PyList [PyDict [("id", PyInt 7)]])])])])]))
              (PyInt 7) eq_refl))))
           _ eq_refl).
Defined.

Lemma authorized_client_sends_token_witness :
  let w := mock [replies 200 (PyDict [("access_token", PyNone);
                                      ("refresh_token", PyStr "r2")])] in
  let x := GustoAuth.authorize (PyStr "code") (GustoAuth.mk PyNone) w in
  let y := me (__init__ PyNone) (world_after x) in
  returned x = Ok PyNone /\
  exists q,
    sent (world_after y) = [token_request (PyStr "code") false; q] /\
    header "Authorization" (req_headers q) = Some "Bearer None".
Proof.
  destruct (authorized_client_sends_token (PyStr "code")
              (GustoAuth.mk PyNone)
              (mock [replies 200 (PyDict [("access_token", PyNone);
                                          ("refresh_token", PyStr "r2")])])
              _ _ _ (PyStr "r2") PyNone
              eq_refl eq_refl eq_refl eq_refl eq_refl)
    as (Hx & q & Hs & _ & _ & Hn).
  split; [exact Hx|]. exists q. split; [exact Hs|exact (Hn eq_refl)].
Defined.

End Runs.

End GustoMore.

(* ===================================================================== *)
(** ** Properties of the module load                                     *)
(* ===================================================================== *)

Module Loading.
Import Urllib.

Lemma environ_getitem_set (environ : list (string * string)) (name : string) :
  In name (List.map fst environ) ->
  exists v, environ_getitem environ name = Ok v /\ In (name, v) environ.
Proof.
  induction environ as [|[n v] environ IH]; cbn; [tauto|].
  intros [->|Hin].
  - rewrite String.eqb_refl. exists v. auto.
  - destruct (String.eqb name n) eqn:E.
    + apply String.eqb_eq in E. subst n. exists v. auto.
    + destruct (IH Hin) as (v' & Hv & Hi). exists v'. auto.
Qed.

Lemma environ_getitem_unset (environ : list (string * string))
  (name : string) :
  ~ In name (List.map fst environ) ->
  environ_getitem environ name = Raise (KeyError (KStr name)).
Proof.
  induction environ as [|[n v] environ IH]; cbn; [reflexivity|].
  intros N. destruct (String.eqb name n) eqn:E.
  - apply String.eqb_eq in E. subst n. elim N. auto.
  - apply IH. tauto.
Qed.

(** Importing the module reads [CLIENT_ID], then [SECRET], from the
    environment: the import goes through exactly when both variables are
    set, with values that are bound to these names in the environment;
    without [CLIENT_ID] it fails with [KeyError('CLIENT_ID')] whether or
    not [SECRET] is set, and with [CLIENT_ID] but no [SECRET] it fails with
    [KeyError('SECRET')]. *)
Theorem load_environ_needs_both (environ : list (string * string)) :
  let names := List.map fst environ in
  ((exists env, load_environ environ = Ok env) <->
   In "CLIENT_ID" names /\ In "SECRET" names) /\
  (forall env,
     load_environ environ = Ok env ->
     In ("CLIENT_ID", @CLIENT_ID env) environ /\
     In ("SECRET", @SECRET env) environ) /\
  (~ In "CLIENT_ID" names ->
   load_environ environ = Raise (KeyError (KStr "CLIENT_ID"))) /\
  (In "CLIENT_ID" names -> ~ In "SECRET" names ->
   load_environ environ = Raise (KeyError (KStr "SECRET"))).
Proof.
  intros names. subst names. unfold load_environ.
  assert (D : forall name,
             {In name (List.map fst environ)}
             + {~ In name (List.map fst environ)})
    by (intros name; apply in_dec, string_dec).
  destruct (D "CLIENT_ID") as [Hc|Hc], (D "SECRET") as [Hs|Hs].
  - destruct (environ_getitem_set _ _ Hc) as (c & -> & Ic).
    destruct (environ_getitem_set _ _ Hs) as (s & -> & Is).
    repeat apply conj; try tauto; eauto.
    intros env Q. injection Q as <-. auto.
  - destruct (environ_getitem_set _ _ Hc) as (c & -> & Ic).
    rewrite (environ_getitem_unset _ _ Hs).
    repeat apply conj; try tauto; try discriminate.
    intros [env Q]. discriminate.
  - rewrite (environ_getitem_unset _ _ Hc).
    repeat apply conj; try tauto; try discriminate.
    intros [env Q]. discriminate.
  - rewrite (environ_getitem_unset _ _ Hc).
    repeat apply conj; try tauto; try discriminate.
    intros [env Q]. discriminate.
Qed.

Lemma hex_digit_safe (n : nat) : always_safe (hex_digit n) = true.
Proof. do 16 (destruct n as [|n]; [reflexivity|]). reflexivity. Qed.

Lemma list_ascii_of_string_app (s1 s2 : string) :
  list_ascii_of_string (s1 ++ s2) =
  (list_ascii_of_string s1 ++ list_ascii_of_string s2)%list.
Proof. induction s1 as [|c s1 IH]; cbn; [reflexivity|now rewrite IH]. Qed.

(** [quote] leaves nothing but always-safe characters and percent signs,
    and does not touch a string of always-safe characters. *)
Lemma quote_safe (s : string) :
  Forall (fun c => always_safe c = true \/ c = "%"%char)
    (list_ascii_of_string (quote s)).
Proof.
  induction s as [|c s IH]; cbn [quote]; [constructor|].
  rewrite list_ascii_of_string_app. apply Forall_app. split; [|exact IH].
  unfold quote_byte.
  destruct (always_safe c) eqn:E; cbn [list_ascii_of_string].
  - apply Forall_cons; [left; exact E|apply Forall_nil].
  - apply Forall_cons; [right; reflexivity|].
    apply Forall_cons; [left; apply hex_digit_safe|].
    apply Forall_cons; [left; apply hex_digit_safe|apply Forall_nil].
Qed.

Lemma quote_fixes_safe (s : string) :
  Forall (fun c => always_safe c = true) (list_ascii_of_string s) ->
  quote s = s.
Proof.
  induction s as [|c s IH]; cbn [quote list_ascii_of_string];
    [reflexivity|].
  intros F. inversion F as [|? ? Hc Hs]; subst.
  unfold quote_byte. rewrite Hc. cbn [append]. now rewrite IH.
Qed.

(** [AUTHORIZE_URL], for every client id: the client id is inserted as it
    is, the callback URL percent-encoded so that no character other than
    always-safe ones and [%] is left of it, and the parameters are
    separated by the five characters [&amp;], as the source spells the
    f-string. *)
Theorem authorize_url_shape {env : Environ} :
  AUTHORIZE_URL =
    "https://api.gusto-demo.com/oauth/authorize?client_id=" ++ CLIENT_ID
    ++ "&amp;redirect_uri=http%3A%2F%2Flocalhost%3A5000%2Fcallback"
    ++ "&amp;response_type=code" /\
  quote CALLBACK_URL = "http%3A%2F%2Flocalhost%3A5000%2Fcallback" /\
  Forall (fun c => always_safe c = true \/ c = "%"%char)
    (list_ascii_of_string (quote CALLBACK_URL)) /\
  (Forall (fun c => always_safe c = true) (list_ascii_of_string CLIENT_ID) ->
   AUTHORIZE_URL =
     "https://api.gusto-demo.com/oauth/authorize?client_id="
     ++ quote CLIENT_ID
     ++ "&amp;redirect_uri=" ++ quote CALLBACK_URL
     ++ "&amp;response_type=code").
Proof.
  assert (Q : quote CALLBACK_URL = "http%3A%2F%2Flocalhost%3A5000%2Fcallback")
    by reflexivity.
  assert (U : AUTHORIZE_URL =
    "https://api.gusto-demo.com/oauth/authorize?client_id=" ++ CLIENT_ID
    ++ "&amp;redirect_uri=http%3A%2F%2Flocalhost%3A5000%2Fcallback"
    ++ "&amp;response_type=code").
  { unfold AUTHORIZE_URL. rewrite Q. reflexivity. }
  split; [exact U|]. split; [exact Q|]. split; [apply quote_safe|].
  intros F. rewrite (quote_fixes_safe _ F), U, Q. reflexivity.
Qed.

Lemma load_environ_needs_both_witness :
  load_environ [("HOME", "/root"); ("CLIENT_ID", "abc")]
  = Raise (KeyError (KStr "SECRET")).
Proof.
  refine (proj2 (proj2 (proj2
            (load_environ_needs_both
               [("HOME", "/root"); ("CLIENT_ID", "abc")]))) _ _).
  - right. left. reflexivity.
  - intros [Q|[Q|[]]]; discriminate.
Defined.

Lemma authorize_url_shape_witness :
  @AUTHORIZE_URL test_environ =
    "https://api.gusto-demo.com/oauth/authorize?client_id=client-id"
    ++ "&amp;redirect_uri=http%3A%2F%2Flocalhost%3A5000%2Fcallback"
    ++ "&amp;response_type=code".
Proof.
  refine (proj2 (proj2 (proj2 (@authorize_url_shape test_environ))) _).
  repeat (apply Forall_cons; [reflexivity|]). apply Forall_nil.
Defined.

End Loading.
